(** * torchio.queue: the patch-sampling [Queue]

    A shallow embedding of [src/torchio/queue.py].  The [Queue] object is a
    record, every method is a function in a state-and-exception monad over
    the object and its surroundings, and the external collaborators (the
    torch [DataLoader], the injected sampler class) are parameters. *)

From Stdlib Require Import ZArith List String Ascii Bool Lia.
From Stdlib Require Import DecimalString.
Import ListNotations.

Set Implicit Arguments.
Set Warnings "-register-all".

(** ** Python values *)

(** The values that flow through the queue.  A tensor is represented by its
    shape, the only thing the queue ever inspects ([.ndim], [.shape] and
    integer indexing).  A [PDict] is a string-keyed dict in insertion order;
    keys are expected to be distinct and lookups take the first match. *)
Inductive pyval : Type :=
| PNone
| PInt (z : Z)
| PStr (s : string)
| PTensor (shape : list nat)
| PList (l : list pyval)
| PDict (d : list (string * pyval)).

(** The exceptions that the modelled statements can raise. *)
Inductive exn : Type :=
| StopIteration
| AssertionError
| IndexError
| KeyError
| TypeError
| AttributeError
| ValueError
| ZeroDivisionError.

Definition exn_eqb (a b : exn) : bool :=
  match a, b with
  | StopIteration, StopIteration
  | AssertionError, AssertionError
  | IndexError, IndexError
  | KeyError, KeyError
  | TypeError, TypeError
  | AttributeError, AttributeError
  | ValueError, ValueError
  | ZeroDivisionError, ZeroDivisionError => true
  | _, _ => false
  end.

(** Outcome of evaluating an expression: a value or a raised exception. *)
Inductive result (A : Type) : Type :=
| Ok (a : A)
| Raise (e : exn).

Arguments Ok {A} a.
Arguments Raise {A} e.

Definition rbind {A B} (r : result A) (k : A -> result B) : result B :=
  match r with
  | Ok a => k a
  | Raise e => Raise e
  end.

(** ** Primitive operations on values *)

Module Py.

(** [d[key]] on an association list. *)
Fixpoint assoc (key : string) (d : list (string * pyval)) : option pyval :=
  match d with
  | [] => None
  | (k, v) :: rest => if String.eqb k key then Some v else assoc key rest
  end.

(** [d[key] = v]: overwrite in place, or append a new key. *)
Fixpoint dict_set (d : list (string * pyval)) (key : string) (v : pyval)
  : list (string * pyval) :=
  match d with
  | [] => [(key, v)]
  | (k, w) :: rest =>
      if String.eqb k key then (k, v) :: rest
      else (k, w) :: dict_set rest key v
  end.

(** [value[key]] for a string key. *)
Definition getitem_key (value : pyval) (key : string) : result pyval :=
  match value with
  | PDict d =>
      match assoc key d with
      | Some v => Ok v
      | None => Raise KeyError
      end
  | PTensor _ => Raise IndexError
  | PNone | PInt _ | PStr _ | PList _ => Raise TypeError
  end.

(** [value[idx]] for a non-negative integer index. *)
Definition getitem_idx (value : pyval) (idx : nat) : result pyval :=
  match value with
  | PTensor [] => Raise IndexError
  | PTensor (d :: shape) =>
      if Nat.ltb idx d then Ok (PTensor shape) else Raise IndexError
  | PList l =>
      match nth_error l idx with
      | Some v => Ok v
      | None => Raise IndexError
      end
  | PStr s =>
      match String.get idx s with
      | Some c => Ok (PStr (String c EmptyString))
      | None => Raise IndexError
      end
  | PDict _ => Raise KeyError
  | PNone | PInt _ => Raise TypeError
  end.

(** [value.shape] and [value.ndim]: tensors only. *)
Definition shape_of (value : pyval) : result (list nat) :=
  match value with
  | PTensor shape => Ok shape
  | _ => Raise AttributeError
  end.

Definition ndim (value : pyval) : result nat :=
  match value with
  | PTensor shape => Ok (List.length shape)
  | _ => Raise AttributeError
  end.

(** [s.split(sep)] for a one-character separator: never empty. *)
Fixpoint split_on (sep : ascii) (s : string) : list string :=
  match s with
  | EmptyString => [EmptyString]
  | String c rest =>
      if Ascii.eqb c sep then EmptyString :: split_on sep rest
      else match split_on sep rest with
           | [] => [String c EmptyString]
           | w :: ws => String c w :: ws
           end
  end.

(** [value.split('_')[-1]]: a [str] gives its last segment; a tensor has a
    [split] method of another signature; nothing else has one. *)
Definition split_last (value : pyval) : result pyval :=
  match value with
  | PStr s =>
      match rev (split_on "_"%char s) with
      | w :: _ => Ok (PStr w)
      | [] => Raise IndexError
      end
  | PTensor _ => Raise TypeError
  | _ => Raise AttributeError
  end.

(** [a % b] and [a // b] on operands that are an int or [None].  Python
    rounds towards minus infinity, as [Z.modulo] and [Z.div] do. *)
Definition mod_ (a b : option Z) : result Z :=
  match a, b with
  | Some x, Some y =>
      if Z.eqb y 0 then Raise ZeroDivisionError else Ok (Z.modulo x y)
  | _, _ => Raise TypeError
  end.

Definition floordiv (a b : option Z) : result Z :=
  match a, b with
  | Some x, Some y =>
      if Z.eqb y 0 then Raise ZeroDivisionError else Ok (Z.div x y)
  | _, _ => Raise TypeError
  end.

(** [a * b] for an int [a] and [b] an int or [None]. *)
Definition mul (a : Z) (b : option Z) : result Z :=
  match b with
  | Some y => Ok (Z.mul a y)
  | None => Raise TypeError
  end.

(** [sys.maxsize] on a 64-bit interpreter. *)
Definition maxsize : Z := 9223372036854775807.

(** An iterator is its sequence of [next] answers: [it i] is the answer to
    call number [i], [None] standing for end of iteration. *)
Definition iterator : Type := nat -> option pyval.

Fixpoint take_from (it : iterator) (i fuel : nat) : list pyval :=
  match fuel with
  | O => []
  | S fuel' =>
      match it i with
      | None => []
      | Some x => x :: take_from it (S i) fuel'
      end
  end.

(** [[s for s in islice(it, stop)]]: at most [stop] values, fewer when the
    iterator ends first; [stop] outside [0 .. sys.maxsize] is refused. *)
Definition islice (it : iterator) (stop : Z) : result (list pyval) :=
  if (Z.leb 0 stop && Z.leb stop maxsize)%bool
  then Ok (take_from it 0 (Z.to_nat stop))
  else Raise ValueError.

(** [l.pop()]: the list without its last element, and that element. *)
Fixpoint pop (l : list pyval) : option (list pyval * pyval) :=
  match l with
  | [] => None
  | x :: rest =>
      match pop rest with
      | None => Some ([], x)
      | Some (rest', y) => Some (x :: rest', y)
      end
  end.

(** [str(z)] for an int, and the formatting of a field that holds an int or
    [None] in a formatted string. *)
Definition str_of_int (z : Z) : string :=
  NilEmpty.string_of_int (Z.to_int z).

Definition format_opt (v : option Z) : string :=
  match v with
  | Some z => str_of_int z
  | None => "None"
  end.

End Py.

(** ** The queue object and its surroundings *)

(** The injected sampler class.  [sampler_class(subject_sample, patch_size)]
    builds an iterator over patches; the first argument numbers the instance,
    so that a sampler may answer differently each time it is built (random
    patch locations). *)
Definition Sampler : Type := nat -> pyval -> pyval -> Py.iterator.

(** What is written to standard output and to the warnings channel.  A
    formatted string is kept as the list of its fragments.  Standard error,
    where [tqdm] draws its progress bar, is not recorded. *)
Inductive event : Type :=
| Printed (args : list pyval)
| Warned (message : list pyval).

(** The attributes of a [Queue] instance.  [max_length] and
    [samples_per_volume] hold an int, or [None] when the caller passed none;
    [subjects_iterable] holds what the current loader iterator has yet to
    yield. *)
Record Queue : Type := mkQueue {
  subjects_dataset : list pyval;
  max_length : option Z;
  shuffle_dataset : bool;
  samples_per_volume : option Z;
  sampler_class : option Sampler;
  patch_size : pyval;
  num_workers : Z;
  verbose : bool;
  subjects_iterable : list pyval;
  patches_list : list pyval;
  num_sampled_patches : Z
}.

(** The surroundings of the object: how many loader iterators and sampler
    instances have been built (the index of the next one), how many batches
    the loader iterators have handed out, and the output so far. *)
Record World : Type := mkWorld {
  passes : nat;
  delivered : nat;
  samplers : nat;
  trace : list event
}.

Record State : Type := mkState {
  self : Queue;
  world : World
}.

Definition set_subjects_iterable (it : list pyval) (s : State) : State :=
  let q := self s in
  mkState
    (mkQueue (subjects_dataset q) (max_length q) (shuffle_dataset q)
       (samples_per_volume q) (sampler_class q) (patch_size q)
       (num_workers q) (verbose q) it (patches_list q)
       (num_sampled_patches q))
    (world s).

Definition set_patches_list (l : list pyval) (s : State) : State :=
  let q := self s in
  mkState
    (mkQueue (subjects_dataset q) (max_length q) (shuffle_dataset q)
       (samples_per_volume q) (sampler_class q) (patch_size q)
       (num_workers q) (verbose q) (subjects_iterable q) l
       (num_sampled_patches q))
    (world s).

Definition set_num_sampled_patches (n : Z) (s : State) : State :=
  let q := self s in
  mkState
    (mkQueue (subjects_dataset q) (max_length q) (shuffle_dataset q)
       (samples_per_volume q) (sampler_class q) (patch_size q)
       (num_workers q) (verbose q) (subjects_iterable q) (patches_list q) n)
    (world s).

Definition emit (e : event) (s : State) : State :=
  let w := world s in
  mkState (self s)
    (mkWorld (passes w) (delivered w) (samplers w) (trace w ++ [e])).

Definition tick_passes (s : State) : State :=
  let w := world s in
  mkState (self s)
    (mkWorld (S (passes w)) (delivered w) (samplers w) (trace w)).

Definition tick_delivered (s : State) : State :=
  let w := world s in
  mkState (self s)
    (mkWorld (passes w) (S (delivered w)) (samplers w) (trace w)).

Definition tick_samplers (s : State) : State :=
  let w := world s in
  mkState (self s)
    (mkWorld (passes w) (delivered w) (S (samplers w)) (trace w)).

(** ** The state-and-exception monad *)

(** A statement runs from a state to an outcome and the state it leaves
    behind; a raised exception keeps every mutation made before it. *)
Definition M (A : Type) : Type := State -> result A * State.

Definition ret {A} (a : A) : M A := fun s => (Ok a, s).

Definition raise {A} (e : exn) : M A := fun s => (Raise e, s).

Definition bind {A B} (m : M A) (k : A -> M B) : M B :=
  fun s =>
    match m s with
    | (Ok a, s') => k a s'
    | (Raise e, s') => (Raise e, s')
    end.

Definition lift {A} (r : result A) : M A := fun s => (r, s).

Definition gets {A} (f : State -> A) : M A := fun s => (Ok (f s), s).

Definition modify (f : State -> State) : M unit := fun s => (Ok tt, f s).

(** [try: m except e: handler]. *)
Definition try_except {A} (m : M A) (e : exn) (handler : M A) : M A :=
  fun s =>
    match m s with
    | (Ok a, s') => (Ok a, s')
    | (Raise e', s') =>
        if exn_eqb e' e then handler s' else (Raise e', s')
    end.

Definition assert_ (b : bool) : M unit :=
  if b then ret tt else raise AssertionError.

Declare Scope py_scope.
Delimit Scope py_scope with py.
Notation "x <- m ;; k" := (bind m (fun x => k))
  (at level 61, m at next level, right associativity) : py_scope.
Notation "m ;; k" := (bind m (fun _ => k))
  (at level 61, right associativity) : py_scope.
Open Scope py_scope.

(** A [for] loop over a list whose body may raise. *)
Fixpoint for_each {A B} (f : A -> result B) (l : list A) : result (list B) :=
  match l with
  | [] => Ok []
  | x :: rest =>
      rbind (f x) (fun y => rbind (for_each f rest) (fun ys => Ok (y :: ys)))
  end.

(** ** The methods of [Queue] *)

Section QueueMethods.

(** [iter(DataLoader(dataset, shuffle=..., num_workers=...))] with the
    default batch size of one: the batches of one pass over the dataset.
    The first argument numbers the pass, so that every pass may come in an
    order of its own.  The loader is taken as one that torch agrees to
    build: torch checks the arguments of [DataLoader] and refuses some (a
    negative number of workers, or shuffling a dataset of no item), and
    these checks are not part of the model. *)
Variable DataLoader : nat -> list pyval -> bool -> Z -> list pyval.

(** [Queue.print]: the arguments have been evaluated by the caller. *)
Definition print (args : list pyval) : M unit :=
  v <- gets (fun s => verbose (self s)) ;;
  if v then modify (emit (Printed args)) else ret tt.

(** [warnings.warn(message)]. *)
Definition warn (message : list pyval) : M unit :=
  modify (emit (Warned message)).

Definition num_subjects (q : Queue) : Z :=
  Z.of_nat (List.length (subjects_dataset q)).

Definition num_patches (q : Queue) : Z :=
  Z.of_nat (List.length (patches_list q)).

Definition iterations_per_epoch (q : Queue) : result Z :=
  Py.mul (num_subjects q) (samples_per_volume q).

Definition __len__ (q : Queue) : result Z :=
  iterations_per_epoch q.

Definition get_subjects_iterable : M (list pyval) :=
  nw <- gets (fun s => num_workers (self s)) ;;
  print [PStr (String "010"%char "Creating subjects loader with");
         PInt nw; PStr "workers"] ;;
  s <- gets (fun s => s) ;;
  let loader :=
    DataLoader (passes (world s)) (subjects_dataset (self s))
      (shuffle_dataset (self s)) (num_workers (self s)) in
  modify tick_passes ;;
  ret loader.

(** [next(self.subjects_iterable)]. *)
Definition next_subjects_iterable : M pyval :=
  it <- gets (fun s => subjects_iterable (self s)) ;;
  match it with
  | [] => raise StopIteration
  | batch :: rest =>
      modify (set_subjects_iterable rest) ;;
      modify tick_delivered ;;
      ret batch
  end.

(** The loop of [squeeze_batch] over [batch.items()], assigning into
    [batch].  The dict is assigned in place; nothing else holds the batch,
    so the dict is passed along as a value. *)
Fixpoint squeeze_items (items : list (string * pyval)) (idx : nat)
  (batch : list (string * pyval)) : result (list (string * pyval)) :=
  match items with
  | [] => Ok batch
  | (key, value) :: rest =>
      rbind (Py.getitem_idx value idx)
        (fun v => squeeze_items rest idx (Py.dict_set batch key v))
  end.

Definition squeeze_batch (batch : pyval) (idx : nat) : result pyval :=
  match batch with
  | PDict items => rbind (squeeze_items items idx items) (fun b => Ok (PDict b))
  | _ => Raise AttributeError
  end.

(** Lines 111 to 117: squeeze, build the message (which reads [.shape]),
    then assert on [.ndim]. *)
Definition check_subject_batch (subject_batch : pyval) : result pyval :=
  rbind (squeeze_batch subject_batch 0) (fun subject_sample =>
  rbind (Py.getitem_key subject_sample "image") (fun image =>
  rbind (Py.shape_of image) (fun _ =>
  rbind (Py.getitem_key subject_sample "image") (fun image' =>
  rbind (Py.ndim image') (fun n =>
  if Nat.eqb n 4 then Ok subject_sample else Raise AssertionError))))).

Definition get_next_subject_sample : M pyval :=
  subject_batch <-
    try_except next_subjects_iterable StopIteration
      (print [PStr "Queue is empty:"; PStr "StopIteration"] ;;
       it <- get_subjects_iterable ;;
       modify (set_subjects_iterable it) ;;
       next_subjects_iterable) ;;
  lift (check_subject_batch subject_batch).

(** Lines 96 to 99, the rest of the loop body: build the sampler, take its
    first [samples_per_volume] patches, extend the buffer.  [fill] has
    raised at line 78 before the loop when [samples_per_volume] is [None],
    and at line 76 when [sampler_class] is. *)
Definition extend_from (subject_sample : pyval) : M unit :=
  s <- gets (fun s => s) ;;
  match sampler_class (self s) with
  | None => raise TypeError
  | Some cls =>
      let sampler :=
        cls (samplers (world s)) subject_sample (patch_size (self s)) in
      modify tick_samplers ;;
      match samples_per_volume (self s) with
      | None => raise TypeError
      | Some k =>
          samples <- lift (Py.islice sampler k) ;;
          l <- gets (fun s => patches_list (self s)) ;;
          modify (set_patches_list (l ++ samples))
      end
  end.

(** [for _ in progress], for [progress = trange(n, leave=False)]: the body
    runs [n] times, none when [n] is not positive.  The progress bar and its
    description are drawn by [tqdm] on standard error, whatever [verbose]
    is; the trace records standard output and warnings only, and the bar is
    left out.  The assertion of line 98 holds of every list comprehension. *)
Fixpoint fill_loop (n : nat) : M unit :=
  match n with
  | O => ret tt
  | S n' =>
      subject_sample <- get_next_subject_sample ;;
      extend_from subject_sample ;;
      fill_loop n'
  end.

Definition is_none (v : pyval) : bool :=
  match v with
  | PNone => true
  | _ => false
  end.

Definition is_some_sampler (c : option Sampler) : bool :=
  match c with
  | Some _ => true
  | None => false
  end.

(** Lines 76 to 91 of [fill]: the assertions, the divisibility warning and
    the number of subjects to load. *)
Definition fill_header : M Z :=
  q <- gets self ;;
  assert_ (is_some_sampler (sampler_class q)) ;;
  assert_ (negb (is_none (patch_size q))) ;;
  r <- lift (Py.mod_ (max_length q) (samples_per_volume q)) ;;
  (if negb (Z.eqb r 0)
   then
     warn [PStr "Samples per volume (";
           match samples_per_volume q with Some k => PInt k | None => PNone end;
           PStr ") not divisible by max length (";
           match max_length q with Some c => PInt c | None => PNone end;
           PStr ")"]
   else ret tt) ;;
  max_num_subjects_for_queue <-
    lift (Py.floordiv (max_length q) (samples_per_volume q)) ;;
  let num_subjects_for_queue :=
    Z.min (num_subjects q) max_num_subjects_for_queue in
  print [PStr "Filling queue from "; PInt num_subjects_for_queue;
         PStr " subjects..."] ;;
  ret num_subjects_for_queue.

Definition fill : M unit :=
  num_subjects_for_queue <- fill_header ;;
  fill_loop (Z.to_nat num_subjects_for_queue).

(** The list comprehension of line 41. *)
Definition path_suffixes (patches : list pyval) : result (list pyval) :=
  for_each
    (fun patch => rbind (Py.getitem_key patch "path") Py.split_last)
    patches.

(** [self.patches_list.pop()]. *)
Definition pop_patch : M pyval :=
  l <- gets (fun s => patches_list (self s)) ;;
  match Py.pop l with
  | None => raise IndexError
  | Some (rest, patch) => modify (set_patches_list rest) ;; ret patch
  end.

(** Lines 38 to 40: [if not self.patches_list: ...]. *)
Definition fill_if_empty : M unit :=
  l <- gets (fun s => patches_list (self s)) ;;
  match l with
  | [] => print [PStr "Patches list is empty."] ;; fill
  | _ :: _ => ret tt
  end.

(** The arguments of the [self.print] call of line 41 are evaluated before
    the call, whatever [verbose] is. *)
Definition __getitem__ (_ : pyval) : M pyval :=
  fill_if_empty ;;
  l <- gets (fun s => patches_list (self s)) ;;
  suffixes <- lift (path_suffixes l) ;;
  print [PStr "Patches:"; PList suffixes] ;;
  sample_patch <- pop_patch ;;
  n <- gets (fun s => num_sampled_patches (self s)) ;;
  modify (set_num_sampled_patches (n + 1)) ;;
  ret sample_patch.

(** [Queue(subjects_dataset, max_length, samples_per_volume, patch_size,
    sampler_class, num_workers, shuffle_dataset, verbose)], run in the
    surroundings [w]. *)
Definition __init__ (subjects_dataset : list pyval) (max_length : option Z)
  (samples_per_volume : option Z) (patch_size : pyval)
  (sampler_class : option Sampler) (num_workers : Z) (shuffle_dataset : bool)
  (verbose : bool) (w : World) : result unit * State :=
  let q0 :=
    mkQueue subjects_dataset max_length shuffle_dataset samples_per_volume
      sampler_class patch_size num_workers verbose [] [] 0 in
  (it <- get_subjects_iterable ;;
   modify (set_subjects_iterable it) ;;
   modify (set_patches_list []) ;;
   modify (set_num_sampled_patches 0)) (mkState q0 w).

(** The call [Queue(...)] itself.  An argument that the caller leaves out is
    [None] here.  The signature gives defaults to [num_workers],
    [shuffle_dataset] and [verbose] only: leaving out any of the first five
    arguments is a [TypeError] raised before the body of [__init__] runs. *)
Definition call_Queue (subjects_dataset : option (list pyval))
  (max_length samples_per_volume : option (option Z))
  (patch_size : option pyval) (sampler_class : option (option Sampler))
  (num_workers : option Z) (shuffle_dataset verbose : option bool)
  (w : World) : result State :=
  match subjects_dataset, max_length, samples_per_volume, patch_size,
        sampler_class with
  | Some ds, Some c, Some k, Some ps, Some cls =>
      let nw := match num_workers with Some n => n | None => 0%Z end in
      let sh := match shuffle_dataset with Some b => b | None => true end in
      let vb := match verbose with Some b => b | None => false end in
      match __init__ ds c k ps cls nw sh vb w with
      | (Ok _, s) => Ok s
      | (Raise e, _) => Raise e
      end
  | _, _, _, _, _ => Raise TypeError
  end.

(** A driver: [n] calls of [queue[i]] in a row, stopping at the first
    exception, as a loop over [range(n)] does. *)
Fixpoint pops (n : nat) : M (list pyval) :=
  match n with
  | O => ret []
  | S n' =>
      p <- __getitem__ PNone ;;
      ps <- pops n' ;;
      ret (p :: ps)
  end.

End QueueMethods.

(** [__repr__]: the six formatted attributes, joined.  The last one reads
    [iterations_per_epoch], the only one that can raise. *)
Definition __repr__ (q : Queue) : result string :=
  rbind (iterations_per_epoch q) (fun epoch =>
  let attributes :=
    [String.append "max_length=" (Py.format_opt (max_length q));
     String.append "num_subjects=" (Py.str_of_int (num_subjects q));
     String.append "num_patches=" (Py.str_of_int (num_patches q));
     String.append "samples_per_volume="
       (Py.format_opt (samples_per_volume q));
     String.append "num_sampled_patches="
       (Py.str_of_int (num_sampled_patches q));
     String.append "iterations_per_epoch=" (Py.str_of_int epoch)] in
  let attributes_string := String.concat ", " attributes in
  Ok (String.append "Queue(" (String.append attributes_string ")"))).

(** ** The vocabulary of the statements *)

(** A patch that line 41 can read: a dict whose ['path'] is a [str]. *)
Definition has_path (patch : pyval) : Prop :=
  exists d s, patch = PDict d /\ Py.assoc "path" d = Some (PStr s).

(** The constructor arguments, which no method assigns to. *)
Definition same_config (q q' : Queue) : Prop :=
  subjects_dataset q' = subjects_dataset q /\
  max_length q' = max_length q /\
  shuffle_dataset q' = shuffle_dataset q /\
  samples_per_volume q' = samples_per_volume q /\
  sampler_class q' = sampler_class q /\
  patch_size q' = patch_size q /\
  num_workers q' = num_workers q /\
  verbose q' = verbose q.

(** The warnings among the events of a trace. *)
Definition is_warning (e : event) : bool :=
  match e with
  | Warned _ => true
  | Printed _ => false
  end.

Definition warnings_of (t : list event) : list event := filter is_warning t.

(** The state after [self.print(args)]. *)
Definition printed (args : list pyval) (s : State) : State :=
  if verbose (self s) then emit (Printed args) s else s.

Section Cursor.

Variable DataLoader : nat -> list pyval -> bool -> Z -> list pyval.

(** The batches of the pass that the next restart would start. *)
Definition next_pass (s : State) : list pyval :=
  DataLoader (passes (world s)) (subjects_dataset (self s))
    (shuffle_dataset (self s)) (num_workers (self s)).

(** The state in which the [except] branch of [get_next_subject_sample]
    calls [next] again. *)
Definition restarted (s : State) : State :=
  let s1 :=
    printed [PStr (String "010"%char "Creating subjects loader with");
             PInt (num_workers (self s)); PStr "workers"]
      (printed [PStr "Queue is empty:"; PStr "StopIteration"] s) in
  set_subjects_iterable (next_pass s) (tick_passes s1).

(** The batch that the next fetch is handed, if there is one. *)
Definition peek (s : State) : option pyval :=
  match subjects_iterable (self s) with
  | batch :: _ => Some batch
  | [] => hd_error (next_pass s)
  end.

(** The next [n] batches of the source cycle: what is left of the current
    pass, then pass after pass; fewer when a pass comes up empty. *)
Fixpoint upcoming_from (ds : list pyval) (sh : bool) (nw : Z) (n : nat)
  (it : list pyval) (p : nat) : list pyval :=
  match n with
  | O => []
  | S n' =>
      match it with
      | batch :: rest => batch :: upcoming_from ds sh nw n' rest p
      | [] =>
          match DataLoader p ds sh nw with
          | batch :: rest => batch :: upcoming_from ds sh nw n' rest (S p)
          | [] => []
          end
      end
  end.

Definition upcoming (n : nat) (s : State) : list pyval :=
  upcoming_from (subjects_dataset (self s)) (shuffle_dataset (self s))
    (num_workers (self s)) n (subjects_iterable (self s)) (passes (world s)).

End Cursor.

(** What [islice(sampler, k)] takes from the sampler built for each drawn
    item: its first patches, up to [k] of them.  The item number [j] of
    [samples] is given to sampler instance [i0 + j]. *)
Fixpoint strategy_groups (cls : Sampler) (ps : pyval) (k : Z) (i0 : nat)
  (samples : list pyval) : list (list pyval) :=
  match samples with
  | [] => []
  | sample :: rest =>
      Py.take_from (cls i0 sample ps) 0 (Z.to_nat k) ::
      strategy_groups cls ps k (S i0) rest
  end.

(** What a statement of the refill may change: it appends to the buffer,
    advances the cursor and the counters of the surroundings, and prints.
    It leaves alone the configuration, the sampled count and the warnings. *)
Definition refill_frame (s s' : State) : Prop :=
  same_config (self s) (self s') /\
  num_sampled_patches (self s') = num_sampled_patches (self s) /\
  warnings_of (trace (world s')) = warnings_of (trace (world s)) /\
  (exists extra, patches_list (self s') = patches_list (self s) ++ extra) /\
  (passes (world s) <= passes (world s'))%nat.

(** The warning of lines 79 to 83. *)
Definition divisibility_warning (c k : Z) : event :=
  Warned [PStr "Samples per volume ("; PInt k;
          PStr ") not divisible by max length ("; PInt c; PStr ")"].

(** The state in which the loop of [fill] starts, for a capacity [c] and [k]
    samples per volume. *)
Definition after_header (c k : Z) (s : State) : State :=
  printed [PStr "Filling queue from ";
           PInt (Z.min (num_subjects (self s)) (c / k));
           PStr " subjects..."]
    (if negb (Z.eqb (c mod k) 0) then emit (divisibility_warning c k) s
     else s).

(** An outcome other than a raised [StopIteration]. *)
Definition no_stop {A} (r : result A) : Prop := r <> Raise StopIteration.

(** A batch that [get_next_subject_sample] accepts. *)
Definition good_batch (batch : pyval) : Prop :=
  exists sample, check_subject_batch batch = Ok sample.

Section Readiness.

Variable ds : list pyval.
Variable cls : Sampler.
Variable ps : pyval.
Variables c k : Z.

(** The configuration these runs are about. *)
Definition configured (q : Queue) : Prop :=
  subjects_dataset q = ds /\
  max_length q = Some c /\
  samples_per_volume q = Some k /\
  sampler_class q = Some cls /\
  patch_size q = ps.

(** A state from which every call succeeds. *)
Definition ready (s : State) : Prop :=
  configured (self s) /\
  Forall good_batch (subjects_iterable (self s)) /\
  Forall has_path (patches_list (self s)).

End Readiness.

(** The cursor accounts for every batch: those handed out and those still
    to come make up whole passes over the dataset, and those still to come
    are no more than one pass. *)
Definition balanced (s : State) : Prop :=
  (delivered (world s) + List.length (subjects_iterable (self s)) =
   passes (world s) * List.length (subjects_dataset (self s)))%nat /\
  (List.length (subjects_iterable (self s)) <=
   List.length (subjects_dataset (self s)))%nat.

(** From [s] to [s'] the output has gained warnings only, and [verbose] is
    still off. *)
Definition only_warned (s s' : State) : Prop :=
  verbose (self s') = false /\
  exists ws,
    trace (world s') = trace (world s) ++ ws /\
    Forall (fun e => is_warning e = true) ws.

(** The lines of standard output among the events of a trace. *)
Definition stdout_of (t : list event) : list event :=
  filter (fun e => negb (is_warning e)) t.

(** A value that [value[idx]] accepts. *)
Definition indexable (idx : nat) (value : pyval) : Prop :=
  exists v, Py.getitem_idx value idx = Ok v.

(** What [squeeze_batch] amounts to on a dict: every value replaced by its
    element [idx], keys and order kept. *)
Definition stripped (idx : nat) (items : list (string * pyval))
  : result (list (string * pyval)) :=
  for_each
    (fun kv => rbind (Py.getitem_idx (snd kv) idx) (fun v => Ok (fst kv, v)))
    items.

(** Whether a character occurs in a string. *)
Fixpoint occurs (c : ascii) (s : string) : bool :=
  match s with
  | EmptyString => false
  | String c' rest => (Ascii.eqb c' c || occurs c rest)%bool
  end.

(** ** Concrete collaborators, used to run the model *)

Module Fixtures.

#[local] Open Scope string_scope.

(** What the default collate function does to one field of a single-sample
    batch: a tensor gains a leading axis of size one, anything else is
    wrapped in a one-element list. *)
Definition batch_field (v : pyval) : pyval :=
  match v with
  | PTensor shape => PTensor (1%nat :: shape)
  | _ => PList [v]
  end.

Definition batch_of (sample : pyval) : pyval :=
  match sample with
  | PDict d => PDict (map (fun kv => (fst kv, batch_field (snd kv))) d)
  | _ => PList [sample]
  end.

(** A loader that does not shuffle: one batch per sample, in order. *)
Definition seq_loader (_ : nat) (ds : list pyval) (_ : bool) (_ : Z)
  : list pyval :=
  map batch_of ds.

Definition subject (name : string) (shape : list nat) : pyval :=
  PDict [("image", PTensor shape); ("path", PStr name)].

(** A sampler that yields patches named after their subject without end. *)
Definition endless_sampler : Sampler :=
  fun _ subject_sample _ _ =>
    Some (PDict [("image", PTensor [1; 2; 2; 2]%nat);
                 ("path",
                  PStr (match Py.getitem_key subject_sample "path" with
                        | Ok (PStr p) => String.append p "_patch"
                        | _ => "patch"
                        end))]).

Definition world0 : World := mkWorld 0 0 0 [].

Definition vol : list nat := [1; 8; 8; 8]%nat.

Definition four_subjects : list pyval :=
  [subject "a" vol; subject "b" vol; subject "c" vol; subject "d" vol].

(** A subject whose image has three axes. *)
Definition flat_subject : pyval := subject "b" [8; 8; 8]%nat.

Definition patch_named (name : string) : pyval :=
  PDict [("image", PTensor [1; 2; 2; 2]%nat); ("path", PStr name)].

(** A queue over [ds], not verbose, with the endless sampler. *)
Definition queue_over (ds : list pyval) (c k : option Z) : State :=
  snd (__init__ seq_loader ds c k (PInt 2) (Some endless_sampler) 0 false
         false world0).

(** Four subjects, capacity 4, two samples per volume. *)
Definition queue_4_2 : State := queue_over four_subjects (Some 4%Z) (Some 2%Z).

(** Capacity 2 is less than the three samples per volume. *)
Definition queue_2_3 : State := queue_over four_subjects (Some 2%Z) (Some 3%Z).

(** Capacity 10 is not a multiple of the three samples per volume. *)
Definition queue_10_3 : State :=
  queue_over four_subjects (Some 10%Z) (Some 3%Z).

(** No subject at all. *)
Definition queue_empty : State := queue_over [] (Some 4%Z) (Some 2%Z).

(** The second subject has a three-axis image. *)
Definition queue_flat_second : State :=
  queue_over [subject "a" vol; flat_subject] (Some 4%Z) (Some 2%Z).

(** A buffer of one patch that has no ['path']. *)
Definition queue_pathless : State :=
  set_patches_list [PDict [("image", PTensor [1; 2; 2; 2]%nat)]] queue_4_2.

(** A buffer of one patch that has one. *)
Definition queue_pathful : State :=
  set_patches_list [patch_named "a_patch"] queue_4_2.

(** The fields of a named patch. *)
Definition patch_fields (name : string) : list (string * pyval) :=
  [("image", PTensor [1; 2; 2; 2]%nat); ("path", PStr name)].

(** Zero, and negative, samples per volume. *)
Definition queue_zero : State := queue_over four_subjects (Some 4%Z) (Some 0%Z).

Definition queue_negative : State :=
  queue_over four_subjects (Some (-4)%Z) (Some (-2)%Z).

(** A buffer of three patches. *)
Definition queue_buffered : State :=
  set_patches_list [patch_named "x_1"; patch_named "x_2"; patch_named "x_3"]
    queue_4_2.

(** The fields of the batch of subject ["a"], and of a batch that has no
    image. *)
Definition batch_items : list (string * pyval) :=
  [("image", PTensor (1%nat :: vol)); ("path", PList [PStr "a"])].

Definition imageless_items : list (string * pyval) :=
  [("path", PList [PStr "a"])].

Definition queue_imageless : State :=
  queue_over [PDict [("path", PStr "a")]] (Some 4%Z) (Some 2%Z).

(** A sampler that yields one patch and ends, and a queue that asks it for
    two. *)
Definition short_sampler : Sampler :=
  fun _ _ _ i =>
    match i with
    | O => Some (patch_named "only")
    | S _ => None
    end.

Definition queue_short : State :=
  snd (__init__ seq_loader four_subjects (Some 4%Z) (Some 2%Z) (PInt 2)
         (Some short_sampler) 0 false false world0).

End Fixtures.

(** ** Facts about the primitive operations *)

Lemma pop_snoc (l : list pyval) (x : pyval) : Py.pop (l ++ [x]) = Some (l, x).
Proof.
  induction l as [|y l IH]; simpl.
  - reflexivity.
  - rewrite IH. reflexivity.
Qed.

Lemma pop_some (l rest : list pyval) (x : pyval) :
  Py.pop l = Some (rest, x) -> l = rest ++ [x].
Proof.
  revert rest x. induction l as [|y l IH]; simpl; intros rest x H.
  - discriminate.
  - destruct (Py.pop l) as [[rest' z]|] eqn:E.
    + inversion H; subst. simpl. f_equal. now apply IH.
    + inversion H; subst. destruct l; [reflexivity|].
      simpl in E. destruct (Py.pop l) as [[? ?]|]; discriminate.
Qed.

Lemma pop_none (l : list pyval) : Py.pop l = None -> l = [].
Proof.
  destruct l; simpl; [reflexivity|].
  destruct (Py.pop l) as [[? ?]|]; discriminate.
Qed.

Lemma take_from_length (it : Py.iterator) (fuel i : nat) :
  (List.length (Py.take_from it i fuel) <= fuel)%nat.
Proof.
  revert i. induction fuel as [|fuel IH]; simpl; intro i.
  - lia.
  - destruct (it i); simpl; [specialize (IH (S i))|]; lia.
Qed.

Lemma islice_ok (it : Py.iterator) (stop : Z) (l : list pyval) :
  Py.islice it stop = Ok l ->
  (0 <= stop /\ Z.of_nat (List.length l) <= stop)%Z.
Proof.
  unfold Py.islice. intro H.
  destruct (Z.leb 0 stop) eqn:E0; simpl in H; [|discriminate].
  destruct (Z.leb stop Py.maxsize); [|discriminate].
  inversion H; subst. apply Z.leb_le in E0. split; [assumption|].
  pose proof (take_from_length it (Z.to_nat stop) 0). lia.
Qed.

Lemma split_on_nonempty (sep : ascii) (s : string) : Py.split_on sep s <> [].
Proof.
  destruct s as [|c s]; simpl; [discriminate|].
  destruct (Ascii.eqb c sep); [discriminate|].
  destruct (Py.split_on sep s); discriminate.
Qed.

Lemma path_read_ok (patch : pyval) :
  (exists w, rbind (Py.getitem_key patch "path") Py.split_last = Ok w)
  <-> has_path patch.
Proof.
  split.
  - intros [w H]. destruct patch; simpl in H; try discriminate.
    destruct (Py.assoc "path" d) as [v|] eqn:E; simpl in H; [|discriminate].
    destruct v; simpl in H; try discriminate.
    exists d, s. split; [reflexivity|assumption].
  - intros (d & s & -> & E). simpl. rewrite E. simpl.
    destruct (rev (Py.split_on "_" s)) as [|w ws] eqn:R.
    + exfalso. apply (split_on_nonempty "_" s).
      rewrite <- (rev_involutive (Py.split_on "_" s)), R. reflexivity.
    + exists (PStr w). reflexivity.
Qed.

Lemma path_suffixes_ok (patches : list pyval) :
  (exists ws, path_suffixes patches = Ok ws) <-> Forall has_path patches.
Proof.
  unfold path_suffixes. induction patches as [|p l IH]; simpl.
  - split; [constructor | eexists; reflexivity].
  - split.
    + intros [ws H].
      destruct (rbind (Py.getitem_key p "path") Py.split_last) as [w|e] eqn:E;
        simpl in H; [|discriminate].
      constructor.
      * apply path_read_ok. exists w. exact E.
      * apply IH.
        destruct (for_each _ l) as [ws'|e]; simpl in H; [|discriminate].
        exists ws'. reflexivity.
    + intro H. inversion H as [|? ? Hp Hl]; subst.
      apply path_read_ok in Hp. destruct Hp as [w Hw].
      apply IH in Hl. destruct Hl as [ws Hws].
      rewrite Hw. simpl. rewrite Hws. simpl. eexists; reflexivity.
Qed.

(** ** Running the methods: what each one leaves behind *)

Lemma same_config_refl (q : Queue) : same_config q q.
Proof. repeat split. Qed.

Lemma same_config_trans (q1 q2 q3 : Queue) :
  same_config q1 q2 -> same_config q2 q3 -> same_config q1 q3.
Proof.
  unfold same_config.
  intros (A1 & A2 & A3 & A4 & A5 & A6 & A7 & A8)
         (B1 & B2 & B3 & B4 & B5 & B6 & B7 & B8).
  repeat split; congruence.
Qed.

Lemma printed_self (args : list pyval) (s : State) :
  self (printed args s) = self s.
Proof. unfold printed. destruct (verbose (self s)); reflexivity. Qed.

Lemma printed_passes (args : list pyval) (s : State) :
  passes (world (printed args s)) = passes (world s).
Proof. unfold printed. destruct (verbose (self s)); reflexivity. Qed.

Lemma printed_delivered (args : list pyval) (s : State) :
  delivered (world (printed args s)) = delivered (world s).
Proof. unfold printed. destruct (verbose (self s)); reflexivity. Qed.

Lemma printed_samplers (args : list pyval) (s : State) :
  samplers (world (printed args s)) = samplers (world s).
Proof. unfold printed. destruct (verbose (self s)); reflexivity. Qed.

Lemma printed_warnings (args : list pyval) (s : State) :
  warnings_of (trace (world (printed args s))) = warnings_of (trace (world s)).
Proof.
  unfold printed, warnings_of. destruct (verbose (self s)); simpl.
  - rewrite filter_app. simpl. apply app_nil_r.
  - reflexivity.
Qed.

Lemma printed_quiet (args : list pyval) (s : State) :
  verbose (self s) = false -> printed args s = s.
Proof. unfold printed. intros ->. reflexivity. Qed.

Lemma print_run (args : list pyval) (s : State) :
  print args s = (Ok tt, printed args s).
Proof.
  unfold print, printed, bind, gets, modify, ret.
  destruct (verbose (self s)); reflexivity.
Qed.

Section Runs.

Variable DataLoader : nat -> list pyval -> bool -> Z -> list pyval.

Lemma get_subjects_iterable_run (s : State) :
  get_subjects_iterable DataLoader s =
  (Ok (next_pass DataLoader s),
   tick_passes
     (printed [PStr (String "010"%char "Creating subjects loader with");
               PInt (num_workers (self s)); PStr "workers"] s)).
Proof.
  unfold get_subjects_iterable, bind, gets. rewrite print_run.
  unfold modify, ret, next_pass.
  rewrite printed_self, printed_passes. reflexivity.
Qed.

Lemma next_cons (s : State) (batch : pyval) (rest : list pyval) :
  subjects_iterable (self s) = batch :: rest ->
  next_subjects_iterable s =
  (Ok batch, tick_delivered (set_subjects_iterable rest s)).
Proof.
  intro H. unfold next_subjects_iterable, bind, gets. rewrite H. reflexivity.
Qed.

Lemma next_nil (s : State) :
  subjects_iterable (self s) = [] ->
  next_subjects_iterable s = (Raise StopIteration, s).
Proof.
  intro H. unfold next_subjects_iterable, bind, gets. rewrite H. reflexivity.
Qed.

Lemma restarted_iterable (s : State) :
  subjects_iterable (self (restarted DataLoader s)) = next_pass DataLoader s.
Proof. reflexivity. Qed.

Lemma handler_run (s : State) :
  (print [PStr "Queue is empty:"; PStr "StopIteration"] ;;
   it <- get_subjects_iterable DataLoader ;;
   modify (set_subjects_iterable it) ;;
   next_subjects_iterable) s =
  next_subjects_iterable (restarted DataLoader s).
Proof.
  unfold bind at 1. rewrite print_run.
  unfold bind at 1. rewrite get_subjects_iterable_run.
  unfold bind, modify. unfold restarted, next_pass.
  rewrite !printed_self, !printed_passes. reflexivity.
Qed.

Lemma gnss_cons (s : State) (batch : pyval) (rest : list pyval) :
  subjects_iterable (self s) = batch :: rest ->
  get_next_subject_sample DataLoader s =
  (check_subject_batch batch, tick_delivered (set_subjects_iterable rest s)).
Proof.
  intro H. unfold get_next_subject_sample, bind, try_except.
  rewrite (next_cons s H). reflexivity.
Qed.

Lemma gnss_restart_cons (s : State) (batch : pyval) (rest : list pyval) :
  subjects_iterable (self s) = [] ->
  next_pass DataLoader s = batch :: rest ->
  get_next_subject_sample DataLoader s =
  (check_subject_batch batch,
   tick_delivered (set_subjects_iterable rest (restarted DataLoader s))).
Proof.
  intros H N. unfold get_next_subject_sample, bind at 1, try_except.
  rewrite (next_nil s H). simpl exn_eqb. cbv iota.
  rewrite handler_run.
  rewrite (@next_cons (restarted DataLoader s) batch rest); [reflexivity|].
  rewrite restarted_iterable. exact N.
Qed.

Lemma gnss_restart_nil (s : State) :
  subjects_iterable (self s) = [] ->
  next_pass DataLoader s = [] ->
  get_next_subject_sample DataLoader s = (Raise StopIteration, restarted DataLoader s).
Proof.
  intros H N. unfold get_next_subject_sample, bind at 1, try_except.
  rewrite (next_nil s H). simpl exn_eqb. cbv iota.
  rewrite handler_run.
  rewrite (@next_nil (restarted DataLoader s)); [reflexivity|].
  rewrite restarted_iterable. exact N.
Qed.

End Runs.

(** Reduce the projections of a state built by the setters, and nothing
    else. *)
Ltac st_simpl :=
  cbn [self world set_subjects_iterable set_patches_list
       set_num_sampled_patches emit tick_passes tick_delivered tick_samplers
       subjects_dataset max_length shuffle_dataset samples_per_volume
       sampler_class patch_size num_workers verbose subjects_iterable
       patches_list num_sampled_patches passes delivered samplers trace
       fst snd] in *.

Lemma refill_frame_refl (s : State) : refill_frame s s.
Proof.
  unfold refill_frame. repeat split; try reflexivity.
  exists []. now rewrite app_nil_r.
Qed.

Lemma refill_frame_trans (s1 s2 s3 : State) :
  refill_frame s1 s2 -> refill_frame s2 s3 -> refill_frame s1 s3.
Proof.
  intros (C1 & N1 & W1 & [x1 P1] & L1) (C2 & N2 & W2 & [x2 P2] & L2).
  unfold refill_frame. split; [eapply same_config_trans; eassumption|].
  repeat split; try congruence; try lia.
  exists (x1 ++ x2). rewrite P2, P1. now rewrite app_assoc.
Qed.

Lemma refill_frame_printed (args : list pyval) (s : State) :
  refill_frame s (printed args s).
Proof.
  unfold refill_frame.
  rewrite printed_self, printed_warnings, printed_passes.
  repeat split; try reflexivity; try lia.
  exists []. now rewrite app_nil_r.
Qed.

Section Refill.

Variable DataLoader : nat -> list pyval -> bool -> Z -> list pyval.

Lemma refill_frame_restarted (s : State) :
  refill_frame s (restarted DataLoader s).
Proof.
  unfold restarted.
  set (s0 := printed [PStr "Queue is empty:"; PStr "StopIteration"] s).
  set (s1 := printed _ s0).
  apply refill_frame_trans with s1.
  - apply refill_frame_trans with s0; apply refill_frame_printed.
  - unfold refill_frame. simpl. repeat split; try reflexivity; try lia.
    exists []. now rewrite app_nil_r.
Qed.

(** One fetch: the outcome is the check of the batch handed over, and the
    fetch consumes exactly that batch. *)
Lemma gnss_some (s : State) (batch : pyval) :
  peek DataLoader s = Some batch ->
  exists s',
    get_next_subject_sample DataLoader s = (check_subject_batch batch, s') /\
    refill_frame s s' /\
    patches_list (self s') = patches_list (self s) /\
    samplers (world s') = samplers (world s) /\
    delivered (world s') = S (delivered (world s)) /\
    exists rest,
      subjects_iterable (self s') = rest /\
      (subjects_iterable (self s) = batch :: rest \/
       subjects_iterable (self s) = [] /\
       next_pass DataLoader s = batch :: rest).
Proof.
  unfold peek. intro H.
  destruct (subjects_iterable (self s)) as [|b rest] eqn:E.
  - destruct (next_pass DataLoader s) as [|b rest] eqn:N; [discriminate|].
    inversion H; subst b. eexists.
    split; [eapply gnss_restart_cons; eassumption|].
    pose proof (refill_frame_restarted s) as F.
    destruct F as (C & Hn & W & [x P] & L).
    assert (Hs : samplers (world (restarted DataLoader s)) = samplers (world s)).
    { unfold restarted. st_simpl. now rewrite !printed_samplers. }
    assert (Hd : delivered (world (restarted DataLoader s)) = delivered (world s)).
    { unfold restarted. st_simpl. now rewrite !printed_delivered. }
    assert (Hp : patches_list (self (restarted DataLoader s)) = patches_list (self s)).
    { unfold restarted. st_simpl. now rewrite !printed_self. }
    unfold refill_frame, same_config in *. st_simpl.
    repeat split; try apply C; try congruence.
    + exists []. rewrite app_nil_r. exact Hp.
    + exists rest. split; [reflexivity|]. right. split; reflexivity.
  - inversion H; subst b. eexists.
    split; [eapply gnss_cons; eassumption|].
    unfold refill_frame, same_config. st_simpl.
    repeat split; try reflexivity; try lia.
    + exists []. now rewrite app_nil_r.
    + exists rest. split; [reflexivity|]. now left.
Qed.

(** A fetch from an empty pass over an exhausted cursor: the restart is
    tried once and its [StopIteration] escapes. *)
Lemma gnss_none (s : State) :
  peek DataLoader s = None ->
  get_next_subject_sample DataLoader s =
    (Raise StopIteration, restarted DataLoader s) /\
  subjects_iterable (self s) = [] /\ next_pass DataLoader s = [].
Proof.
  unfold peek. intro H.
  destruct (subjects_iterable (self s)) as [|b rest] eqn:E; [|discriminate].
  destruct (next_pass DataLoader s) as [|b rest] eqn:N; [|discriminate].
  split; [eapply gnss_restart_nil; eassumption|]. split; reflexivity.
Qed.

Lemma extend_from_run (s : State) (subject_sample : pyval) (cls : Sampler)
  (k : Z) :
  sampler_class (self s) = Some cls ->
  samples_per_volume (self s) = Some k ->
  extend_from subject_sample s =
  match Py.islice (cls (samplers (world s)) subject_sample
                     (patch_size (self s))) k with
  | Ok samples =>
      (Ok tt,
       set_patches_list (patches_list (self s) ++ samples) (tick_samplers s))
  | Raise e => (Raise e, tick_samplers s)
  end.
Proof.
  intros Hc Hk. unfold extend_from, bind, gets. rewrite Hc.
  unfold modify. simpl. rewrite Hk. unfold lift.
  destruct (Py.islice _ k); reflexivity.
Qed.

Lemma extend_from_frame (s : State) (subject_sample : pyval) :
  refill_frame s (snd (extend_from subject_sample s)).
Proof.
  unfold extend_from, bind, gets.
  destruct (sampler_class (self s)) as [cls|] eqn:Hc;
    [|apply refill_frame_refl].
  unfold modify. simpl.
  destruct (samples_per_volume (self s)) as [k|] eqn:Hk.
  - unfold lift. destruct (Py.islice _ k) as [l|e]; simpl.
    + unfold refill_frame. simpl. repeat split; try reflexivity; try lia.
      eexists; reflexivity.
    + unfold refill_frame. simpl. repeat split; try reflexivity; try lia.
      exists []. now rewrite app_nil_r.
  - simpl. unfold refill_frame. simpl. repeat split; try reflexivity; try lia.
    exists []. now rewrite app_nil_r.
Qed.

Lemma gnss_frame (s : State) :
  refill_frame s (snd (get_next_subject_sample DataLoader s)).
Proof.
  destruct (peek DataLoader s) as [b|] eqn:P.
  - destruct (gnss_some s P) as (s' & R & F & _). rewrite R. exact F.
  - destruct (gnss_none s P) as (R & _). rewrite R.
    apply refill_frame_restarted.
Qed.

Lemma fill_loop_frame (n : nat) (s : State) :
  refill_frame s (snd (fill_loop DataLoader n s)).
Proof.
  revert s. induction n as [|n IH]; intro s; simpl.
  - apply refill_frame_refl.
  - unfold bind at 1.
    pose proof (gnss_frame s) as F1.
    destruct (get_next_subject_sample DataLoader s) as [[sample|e] s1];
      simpl in F1; [|exact F1].
    unfold bind at 1.
    pose proof (extend_from_frame s1 sample) as F2.
    destruct (extend_from sample s1) as [[[]|e] s2]; simpl in F2.
    + eapply refill_frame_trans; [exact F1|].
      eapply refill_frame_trans; [exact F2|]. apply IH.
    + simpl. eapply refill_frame_trans; eassumption.
Qed.

End Refill.

(** ** The refill, step by step *)

Lemma after_header_self (c k : Z) (s : State) :
  self (after_header c k s) = self s.
Proof.
  unfold after_header. rewrite printed_self.
  destruct (negb (Z.eqb (c mod k) 0)); reflexivity.
Qed.

Lemma after_header_world (c k : Z) (s : State) :
  passes (world (after_header c k s)) = passes (world s) /\
  delivered (world (after_header c k s)) = delivered (world s) /\
  samplers (world (after_header c k s)) = samplers (world s).
Proof.
  unfold after_header.
  rewrite printed_passes, printed_delivered, printed_samplers.
  destruct (negb (Z.eqb (c mod k) 0)); repeat split; reflexivity.
Qed.

Lemma after_header_warnings (c k : Z) (s : State) :
  warnings_of (trace (world (after_header c k s))) =
  warnings_of (trace (world s)) ++
  (if Z.eqb (c mod k) 0 then [] else [divisibility_warning c k]).
Proof.
  unfold after_header. rewrite printed_warnings.
  destruct (Z.eqb (c mod k) 0); simpl.
  - now rewrite app_nil_r.
  - unfold warnings_of. rewrite filter_app. reflexivity.
Qed.

Lemma fill_header_run (s : State) (cls : Sampler) (c k : Z) :
  sampler_class (self s) = Some cls ->
  is_none (patch_size (self s)) = false ->
  max_length (self s) = Some c ->
  samples_per_volume (self s) = Some k ->
  k <> 0%Z ->
  fill_header s =
  (Ok (Z.min (num_subjects (self s)) (c / k)), after_header c k s).
Proof.
  intros Hc Hp Hm Hk Hk0.
  unfold fill_header, bind at 1, gets.
  rewrite Hc, Hp, Hm, Hk. simpl is_some_sampler. simpl negb.
  unfold assert_, bind at 1, ret. unfold bind at 1.
  unfold Py.mod_, Py.floordiv.
  apply Z.eqb_neq in Hk0. rewrite Hk0.
  unfold bind at 1, lift. unfold bind at 1.
  unfold after_header.
  destruct (negb (Z.eqb (c mod k) 0)).
  - unfold warn, modify. unfold bind at 1. unfold bind at 1.
    rewrite print_run. reflexivity.
  - unfold ret. unfold bind at 1. unfold bind at 1.
    rewrite print_run. reflexivity.
Qed.

(** The assertions of lines 76 and 77. *)
Lemma fill_header_unset (s : State) :
  sampler_class (self s) = None \/ patch_size (self s) = PNone ->
  fill_header s = (Raise AssertionError, s).
Proof.
  intros [H|H]; unfold fill_header, bind at 1, gets.
  - rewrite H. reflexivity.
  - rewrite H. destruct (sampler_class (self s)); reflexivity.
Qed.

(** Line 78 with an operand that is [None]. *)
Lemma fill_header_missing (s : State) (cls : Sampler) :
  sampler_class (self s) = Some cls ->
  is_none (patch_size (self s)) = false ->
  max_length (self s) = None \/ samples_per_volume (self s) = None ->
  fill_header s = (Raise TypeError, s).
Proof.
  intros Hc Hp H. unfold fill_header, bind at 1, gets.
  rewrite Hc, Hp. simpl.
  unfold assert_, bind at 1, ret. unfold bind at 1. unfold bind at 1.
  unfold lift.
  destruct H as [H|H]; rewrite H; simpl.
  - reflexivity.
  - destruct (max_length (self s)); reflexivity.
Qed.

(** Line 78 with zero samples per volume. *)
Lemma fill_header_zero (s : State) (cls : Sampler) (c : Z) :
  sampler_class (self s) = Some cls ->
  is_none (patch_size (self s)) = false ->
  max_length (self s) = Some c ->
  samples_per_volume (self s) = Some 0%Z ->
  fill_header s = (Raise ZeroDivisionError, s).
Proof.
  intros Hc Hp Hm Hk. unfold fill_header, bind at 1, gets.
  rewrite Hc, Hp, Hm, Hk. reflexivity.
Qed.

(** Whatever its outcome, the header leaves the object as it is and only
    writes to the output. *)
Lemma fill_header_frame (s : State) :
  self (snd (fill_header s)) = self s /\
  passes (world (snd (fill_header s))) = passes (world s) /\
  delivered (world (snd (fill_header s))) = delivered (world s) /\
  samplers (world (snd (fill_header s))) = samplers (world s).
Proof.
  destruct (sampler_class (self s)) as [cls|] eqn:Hc.
  2:{ rewrite fill_header_unset by now left. repeat split. }
  destruct (is_none (patch_size (self s))) eqn:Hp.
  { rewrite fill_header_unset; [repeat split|].
    right. destruct (patch_size (self s)); (discriminate || reflexivity). }
  destruct (max_length (self s)) as [c|] eqn:Hm.
  2:{ rewrite (fill_header_missing s Hc Hp) by now left. repeat split. }
  destruct (samples_per_volume (self s)) as [k|] eqn:Hk.
  2:{ rewrite (fill_header_missing s Hc Hp) by now right. repeat split. }
  destruct (Z.eq_dec k 0) as [->|Hk0].
  - rewrite (fill_header_zero s Hc Hp Hm Hk). repeat split.
  - rewrite (fill_header_run s Hc Hp Hm Hk Hk0). st_simpl.
    rewrite after_header_self.
    destruct (after_header_world c k s) as (A & B & C). repeat split; assumption.
Qed.

Section RefillSteps.

Variable DataLoader : nat -> list pyval -> bool -> Z -> list pyval.

Lemma gnss_ok (s s1 : State) (sample : pyval) :
  get_next_subject_sample DataLoader s = (Ok sample, s1) ->
  exists batch,
    peek DataLoader s = Some batch /\
    check_subject_batch batch = Ok sample /\
    refill_frame s s1 /\
    patches_list (self s1) = patches_list (self s) /\
    samplers (world s1) = samplers (world s) /\
    delivered (world s1) = S (delivered (world s)).
Proof.
  intro H. destruct (peek DataLoader s) as [b|] eqn:P.
  - destruct (gnss_some DataLoader s P) as (s' & R & F & A & B & C & _).
    rewrite R in H. inversion H; subst s'. exists b.
    repeat split; try assumption; try apply F.
  - destruct (gnss_none DataLoader s P) as (R & _).
    rewrite R in H. discriminate.
Qed.

Lemma extend_from_ok (s s2 : State) (sample : pyval) (k : Z) :
  samples_per_volume (self s) = Some k ->
  extend_from sample s = (Ok tt, s2) ->
  exists cls samples,
    sampler_class (self s) = Some cls /\
    Py.islice (cls (samplers (world s)) sample (patch_size (self s))) k =
      Ok samples /\
    s2 = set_patches_list (patches_list (self s) ++ samples) (tick_samplers s).
Proof.
  intros Hk H. destruct (sampler_class (self s)) as [cls|] eqn:Hc.
  - rewrite (extend_from_run s sample Hc Hk) in H.
    destruct (Py.islice _ k) as [l|e] eqn:I; [|discriminate].
    inversion H. exists cls, l. repeat split. exact I.
  - unfold extend_from, bind, gets in H. rewrite Hc in H. discriminate.
Qed.

Lemma fill_loop_step (n : nat) (s s' : State) :
  fill_loop DataLoader (S n) s = (Ok tt, s') ->
  exists sample s1 s2,
    get_next_subject_sample DataLoader s = (Ok sample, s1) /\
    extend_from sample s1 = (Ok tt, s2) /\
    fill_loop DataLoader n s2 = (Ok tt, s').
Proof.
  simpl. unfold bind at 1.
  destruct (get_next_subject_sample DataLoader s) as [[sample|e] s1] eqn:G;
    [|discriminate].
  unfold bind at 1.
  destruct (extend_from sample s1) as [[[]|e] s2] eqn:X; [|discriminate].
  intro H. exists sample, s1, s2.
  split; [reflexivity|]. split; [exact X|exact H].
Qed.

(** A loop of [n] rounds that completes has fetched [n] batches, built [n]
    samplers and appended [n] groups of at most [k] patches. *)
Lemma fill_loop_ok (n : nat) (k : Z) (s s' : State) :
  samples_per_volume (self s) = Some k ->
  fill_loop DataLoader n s = (Ok tt, s') ->
  delivered (world s') = (delivered (world s) + n)%nat /\
  samplers (world s') = (samplers (world s) + n)%nat /\
  exists groups,
    List.length groups = n /\
    patches_list (self s') = patches_list (self s) ++ List.concat groups /\
    Forall (fun g => (Z.of_nat (List.length g) <= k)%Z) groups.
Proof.
  revert s. induction n as [|n IH]; intros s Hk H.
  - simpl in H. inversion H; subst s'.
    repeat split; try lia. exists []. simpl.
    repeat split; [now rewrite app_nil_r | constructor].
  - apply fill_loop_step in H.
    destruct H as (sample & s1 & s2 & G & X & L).
    apply gnss_ok in G.
    destruct G as (b & _ & _ & F & P1 & S1 & D1).
    assert (Hk1 : samples_per_volume (self s1) = Some k).
    { destruct F as (C & _). unfold same_config in C.
      destruct C as (_ & _ & _ & C & _). congruence. }
    destruct (extend_from_ok s1 sample Hk1 X) as (cls & l & Hc & I & ->).
    assert (Hk2 : samples_per_volume
                    (self (set_patches_list (patches_list (self s1) ++ l)
                                            (tick_samplers s1))) = Some k)
      by exact Hk1.
    destruct (IH _ Hk2 L) as (D & Sm & groups & Lg & Pg & Fg).
    st_simpl. repeat split; try lia.
    exists (l :: groups). simpl. repeat split.
    + now rewrite Lg.
    + rewrite Pg, P1. now rewrite app_assoc.
    + constructor; [|exact Fg]. apply (islice_ok _ _ I).
Qed.

End RefillSteps.

Lemma concat_length_le (k : Z) (groups : list (list pyval)) :
  Forall (fun g => (Z.of_nat (List.length g) <= k)%Z) groups ->
  (Z.of_nat (List.length (List.concat groups)) <=
   Z.of_nat (List.length groups) * k)%Z.
Proof.
  induction 1 as [|g groups Hg _ IH]; cbn [List.concat List.length].
  - lia.
  - rewrite length_app. lia.
Qed.

Lemma concat_length_uniform (k : Z) (groups : list (list pyval)) :
  Forall (fun g => Z.of_nat (List.length g) = k) groups ->
  Z.of_nat (List.length (List.concat groups)) =
  (Z.of_nat (List.length groups) * k)%Z.
Proof.
  induction 1 as [|g groups Hg _ IH]; cbn [List.concat List.length].
  - lia.
  - rewrite length_app. lia.
Qed.

Lemma num_subjects_nonneg (q : Queue) : (0 <= num_subjects q)%Z.
Proof. unfold num_subjects. lia. Qed.

(** A refill that completes has passed the header, and is the loop run from
    the state the header leaves. *)
Lemma fill_ok (DataLoader : nat -> list pyval -> bool -> Z -> list pyval)
  (s s' : State) (c k : Z) :
  max_length (self s) = Some c ->
  samples_per_volume (self s) = Some k ->
  fill DataLoader s = (Ok tt, s') ->
  k <> 0%Z /\
  fill_loop DataLoader (Z.to_nat (Z.min (num_subjects (self s)) (c / k)))
    (after_header c k s) = (Ok tt, s').
Proof.
  intros Hm Hk H. unfold fill, bind in H.
  destruct (sampler_class (self s)) as [cls|] eqn:Hc.
  2:{ rewrite fill_header_unset in H by now left. discriminate. }
  destruct (is_none (patch_size (self s))) eqn:Hp.
  { rewrite fill_header_unset in H; [discriminate|].
    right. destruct (patch_size (self s)); (discriminate || reflexivity). }
  destruct (Z.eq_dec k 0) as [->|Hk0].
  { rewrite (fill_header_zero s Hc Hp Hm Hk) in H. discriminate. }
  rewrite (fill_header_run s Hc Hp Hm Hk Hk0) in H. split; assumption.
Qed.

Lemma islice_take (it : Py.iterator) (stop : Z) (l : list pyval) :
  Py.islice it stop = Ok l -> l = Py.take_from it 0 (Z.to_nat stop).
Proof.
  unfold Py.islice. destruct (Z.leb 0 stop && Z.leb stop Py.maxsize)%bool;
    intro H; inversion H. reflexivity.
Qed.

Section Draws.

Variable DataLoader : nat -> list pyval -> bool -> Z -> list pyval.

Lemma upcoming_same (n : nat) (s s' : State) :
  self s' = self s -> passes (world s') = passes (world s) ->
  upcoming DataLoader n s' = upcoming DataLoader n s.
Proof. unfold upcoming. intros -> ->. reflexivity. Qed.

Lemma gnss_cursor (s s1 : State) (sample : pyval) :
  get_next_subject_sample DataLoader s = (Ok sample, s1) ->
  exists batch,
    check_subject_batch batch = Ok sample /\
    forall n,
      upcoming DataLoader (S n) s = batch :: upcoming DataLoader n s1.
Proof.
  intro H. destruct (subjects_iterable (self s)) as [|b rest] eqn:E.
  - destruct (next_pass DataLoader s) as [|b rest] eqn:N.
    + rewrite (gnss_restart_nil DataLoader s E N) in H. discriminate.
    + rewrite (gnss_restart_cons DataLoader s E N) in H.
      injection H as C S1. subst s1. exists b. split; [exact C|].
      intro n. unfold upcoming. st_simpl. rewrite E.
      unfold next_pass in N. simpl. rewrite N.
      unfold restarted. st_simpl.
      now rewrite !printed_self, !printed_passes.
  - rewrite (gnss_cons DataLoader s E) in H.
    injection H as C S1. subst s1. exists b. split; [exact C|].
    intro n. unfold upcoming. st_simpl. rewrite E. reflexivity.
Qed.

Lemma fill_loop_draws (n : nat) (cls : Sampler) (k : Z) (s s' : State) :
  sampler_class (self s) = Some cls ->
  samples_per_volume (self s) = Some k ->
  fill_loop DataLoader n s = (Ok tt, s') ->
  exists samples,
    List.length samples = n /\
    Forall2 (fun batch sample => check_subject_batch batch = Ok sample)
      (upcoming DataLoader n s) samples /\
    patches_list (self s') =
      patches_list (self s) ++
      List.concat (strategy_groups cls (patch_size (self s)) k
                     (samplers (world s)) samples).
Proof.
  revert s. induction n as [|n IH]; intros s Hc Hk H.
  - simpl in H. inversion H; subst s'. exists []. simpl.
    split; [reflexivity|]. split; [constructor|]. now rewrite app_nil_r.
  - apply fill_loop_step in H.
    destruct H as (sample & s1 & s2 & G & X & L).
    destruct (gnss_cursor s G) as (b & C & U).
    apply gnss_ok in G.
    destruct G as (_ & _ & _ & F & P1 & S1 & _).
    destruct F as ((_ & _ & _ & K1 & C1 & Q1 & _) & _).
    assert (Hk1 : samples_per_volume (self s1) = Some k) by congruence.
    assert (Hc1 : sampler_class (self s1) = Some cls) by congruence.
    destruct (extend_from_ok s1 sample Hk1 X) as (cls' & l & Hc' & I & ->).
    assert (cls' = cls) by congruence. subst cls'.
    apply islice_take in I.
    destruct (IH (set_patches_list (patches_list (self s1) ++ l)
                    (tick_samplers s1)) Hc1 Hk1 L)
      as (samples & Ls & Fs & Ps).
    exists (sample :: samples). split; [simpl; now rewrite Ls|].
    split.
    + rewrite U. constructor; [exact C|]. exact Fs.
    + st_simpl. rewrite Ps. st_simpl. simpl.
      rewrite I, P1, S1, Q1. now rewrite app_assoc.
Qed.

End Draws.

Lemma strategy_groups_length (cls : Sampler) (ps : pyval) (k : Z) (i0 : nat)
  (samples : list pyval) :
  List.length (strategy_groups cls ps k i0 samples) = List.length samples.
Proof.
  revert i0. induction samples as [|x l IH]; intro i0; simpl;
    [reflexivity|]. now rewrite IH.
Qed.

Lemma strategy_groups_bound (cls : Sampler) (ps : pyval) (k : Z) (i0 : nat)
  (samples : list pyval) :
  (0 <= k)%Z ->
  Forall (fun g => (Z.of_nat (List.length g) <= k)%Z)
    (strategy_groups cls ps k i0 samples).
Proof.
  intro Hk. revert i0. induction samples as [|x l IH]; intro i0; simpl;
    constructor; [|apply IH].
  pose proof (take_from_length (cls i0 x ps) (Z.to_nat k) 0). lia.
Qed.

(** C1.  A refill that starts from an empty buffer and completes has drawn
    exactly [min(num_subjects, max_length // samples_per_volume)] source
    items: the next batches of the source cycle, each accepted.  The buffer
    then holds, item after item, what the sampler returned for each of these
    items, cut at [samples_per_volume] patches: one group per drawn item,
    so that when every group has the same size [k'] the buffer holds that
    number times [k'] patches; and in any case the buffer holds no more than
    [max_length] patches.  Capacity is a non-negative count and the samples
    per volume a positive one. *)
Theorem refill_sizing
  (DataLoader : nat -> list pyval -> bool -> Z -> list pyval)
  (s s' : State) (c k : Z) :
  patches_list (self s) = [] ->
  max_length (self s) = Some c ->
  samples_per_volume (self s) = Some k ->
  (0 <= c)%Z ->
  (0 < k)%Z ->
  fill DataLoader s = (Ok tt, s') ->
  let drawn := Z.min (num_subjects (self s)) (c / k) in
  Z.of_nat (delivered (world s')) = (Z.of_nat (delivered (world s)) + drawn)%Z /\
  (exists cls samples groups,
     sampler_class (self s) = Some cls /\
     Forall2 (fun batch sample => check_subject_batch batch = Ok sample)
       (upcoming DataLoader (Z.to_nat drawn) s) samples /\
     groups =
       strategy_groups cls (patch_size (self s)) k (samplers (world s))
         samples /\
     Z.of_nat (List.length groups) = drawn /\
     patches_list (self s') = List.concat groups /\
     Forall (fun g => (Z.of_nat (List.length g) <= k)%Z) groups /\
     forall k',
       Forall (fun g => Z.of_nat (List.length g) = k') groups ->
       num_patches (self s') = (drawn * k')%Z) /\
  (num_patches (self s') <= c)%Z.
Proof.
  intros He Hm Hk Hc0 Hk0 H drawn.
  destruct (fill_ok DataLoader s Hm Hk H) as (_ & L).
  fold drawn in L.
  destruct (sampler_class (self s)) as [cls|] eqn:Hc.
  2:{ unfold fill, bind in H. rewrite fill_header_unset in H by now left.
      discriminate. }
  assert (Hk' : samples_per_volume (self (after_header c k s)) = Some k)
    by (rewrite after_header_self; exact Hk).
  assert (Hc' : sampler_class (self (after_header c k s)) = Some cls)
    by (rewrite after_header_self; exact Hc).
  destruct (fill_loop_ok DataLoader _ _ Hk' L) as (D & _).
  destruct (@fill_loop_draws DataLoader _ cls k _ s' Hc' Hk' L)
    as (samples & Ls & Fs & Ps).
  destruct (after_header_world c k s) as (Ph & Dh & Sh).
  rewrite (@upcoming_same DataLoader _ s (after_header c k s)) in Fs
    by (rewrite ?after_header_self; auto).
  rewrite after_header_self, He, Sh in Ps. simpl in Ps.
  set (groups := strategy_groups cls (patch_size (self s)) k
                   (samplers (world s)) samples) in *.
  assert (Lg : List.length groups = Z.to_nat drawn).
  { unfold groups. now rewrite strategy_groups_length. }
  assert (Fg : Forall (fun g => (Z.of_nat (List.length g) <= k)%Z) groups).
  { apply strategy_groups_bound. lia. }
  assert (Hq : (0 <= c / k)%Z) by (apply Z.div_pos; lia).
  pose proof (num_subjects_nonneg (self s)) as Hn.
  assert (Hd : (0 <= drawn)%Z) by (unfold drawn; lia).
  split; [rewrite D, Dh; lia|].
  split.
  - exists cls, samples, groups. split; [reflexivity|].
    split; [exact Fs|]. split; [reflexivity|].
    split; [rewrite Lg; lia|].
    split; [exact Ps|]. split; [exact Fg|].
    intros k' U. unfold num_patches. rewrite Ps.
    rewrite (concat_length_uniform U), Lg, Z2Nat.id by exact Hd. reflexivity.
  - unfold num_patches. rewrite Ps.
    pose proof (concat_length_le Fg) as B.
    rewrite Lg, Z2Nat.id in B by exact Hd.
    pose proof (Z.mul_div_le c k Hk0) as M.
    assert ((drawn <= c / k)%Z) by (unfold drawn; lia).
    nia.
Qed.

(** ** One call of [__getitem__] *)

Section GetItem.

Variable DataLoader : nat -> list pyval -> bool -> Z -> list pyval.

Lemma fill_if_empty_nonempty (s : State) :
  patches_list (self s) <> [] ->
  fill_if_empty DataLoader s = (Ok tt, s).
Proof.
  intro H. unfold fill_if_empty, bind, gets.
  destruct (patches_list (self s)); [contradiction|reflexivity].
Qed.

Lemma fill_if_empty_empty (s : State) :
  patches_list (self s) = [] ->
  fill_if_empty DataLoader s =
  fill DataLoader (printed [PStr "Patches list is empty."] s).
Proof.
  intro H. unfold fill_if_empty, bind at 1, gets. rewrite H.
  unfold bind at 1. rewrite print_run. reflexivity.
Qed.

(** The call, spelt out on the state [s1] that lines 38 to 40 leave. *)
Lemma getitem_run (i : pyval) (s : State) :
  __getitem__ DataLoader i s =
  match fill_if_empty DataLoader s with
  | (Raise e, s1) => (Raise e, s1)
  | (Ok _, s1) =>
      match path_suffixes (patches_list (self s1)) with
      | Raise e => (Raise e, s1)
      | Ok suffixes =>
          let s2 := printed [PStr "Patches:"; PList suffixes] s1 in
          match Py.pop (patches_list (self s1)) with
          | None => (Raise IndexError, s2)
          | Some (rest, patch) =>
              (Ok patch,
               set_num_sampled_patches (num_sampled_patches (self s1) + 1)
                 (set_patches_list rest s2))
          end
      end
  end.
Proof.
  unfold __getitem__, bind at 1.
  destruct (fill_if_empty DataLoader s) as [[u|e] s1]; [|reflexivity].
  unfold bind at 1, gets. unfold bind at 1, lift.
  destruct (path_suffixes (patches_list (self s1))) as [sfx|e]; [|reflexivity].
  unfold bind at 1. rewrite print_run.
  unfold pop_patch, bind at 1, bind at 1, gets.
  rewrite printed_self.
  destruct (Py.pop (patches_list (self s1))) as [[rest patch]|]; [|reflexivity].
  unfold bind, modify, gets, ret. st_simpl. rewrite printed_self. reflexivity.
Qed.

Lemma fill_frame (s : State) :
  same_config (self s) (self (snd (fill DataLoader s))) /\
  num_sampled_patches (self (snd (fill DataLoader s))) =
    num_sampled_patches (self s).
Proof.
  unfold fill, bind.
  pose proof (fill_header_frame s) as (Hs & _).
  destruct (fill_header s) as [[n|e] s0]; simpl in Hs.
  - pose proof (fill_loop_frame DataLoader (Z.to_nat n) s0) as (C & N & _).
    rewrite Hs in C, N. split; assumption.
  - simpl. rewrite Hs. split; [apply same_config_refl|reflexivity].
Qed.

Lemma fill_if_empty_frame (s : State) :
  same_config (self s) (self (snd (fill_if_empty DataLoader s))) /\
  num_sampled_patches (self (snd (fill_if_empty DataLoader s))) =
    num_sampled_patches (self s).
Proof.
  destruct (patches_list (self s)) as [|p l] eqn:E.
  - rewrite (fill_if_empty_empty s E).
    pose proof (fill_frame (printed [PStr "Patches list is empty."] s)) as F.
    rewrite printed_self in F. exact F.
  - rewrite fill_if_empty_nonempty by (rewrite E; discriminate).
    split; [apply same_config_refl|reflexivity].
Qed.

Lemma getitem_same_config (i : pyval) (s : State) :
  same_config (self s) (self (snd (__getitem__ DataLoader i s))).
Proof.
  rewrite getitem_run.
  pose proof (fill_if_empty_frame s) as (C & _).
  destruct (fill_if_empty DataLoader s) as [[u|e] s1]; simpl in C; [|exact C].
  destruct (path_suffixes _) as [sfx|e]; [|exact C].
  cbv zeta.
  destruct (Py.pop _) as [[rest patch]|]; st_simpl.
  - unfold same_config in *. st_simpl. rewrite printed_self. exact C.
  - rewrite printed_self. exact C.
Qed.

Lemma pops_same_config (n : nat) (s : State) :
  same_config (self s) (self (snd (pops DataLoader n s))).
Proof.
  revert s. induction n as [|n IH]; intro s; simpl.
  - apply same_config_refl.
  - unfold bind at 1.
    pose proof (getitem_same_config PNone s) as C.
    destruct (__getitem__ DataLoader PNone s) as [[p|e] s1]; simpl in C;
      [|exact C].
    unfold bind. specialize (IH s1).
    destruct (pops DataLoader n s1) as [[ps|e] s2]; simpl in *;
      eapply same_config_trans; eassumption.
Qed.

End GetItem.

(** ** Properties of one call *)

(** C2.  A call of [__getitem__] that returns a patch has run the refill if
    the buffer was empty at the start, and has run nothing of it otherwise
    ([s1], the state after lines 38 to 40, is then the starting state); the
    patch returned is the last one of the buffer as it stood after those
    lines, and the buffer is left without it; the sampled count has grown
    by exactly one, whether or not a refill or a warning took place; and the
    call touches nothing else after the refill. *)
Theorem pop_next_contract
  (DataLoader : nat -> list pyval -> bool -> Z -> list pyval)
  (i : pyval) (s s' : State) (patch : pyval) :
  __getitem__ DataLoader i s = (Ok patch, s') ->
  exists s1,
    (patches_list (self s) = [] ->
     fill DataLoader (printed [PStr "Patches list is empty."] s) = (Ok tt, s1)) /\
    (patches_list (self s) <> [] -> s1 = s) /\
    patches_list (self s1) = patches_list (self s') ++ [patch] /\
    List.length (patches_list (self s1)) =
      S (List.length (patches_list (self s'))) /\
    num_sampled_patches (self s') = (num_sampled_patches (self s) + 1)%Z /\
    subjects_iterable (self s') = subjects_iterable (self s1) /\
    passes (world s') = passes (world s1) /\
    delivered (world s') = delivered (world s1) /\
    samplers (world s') = samplers (world s1) /\
    warnings_of (trace (world s')) = warnings_of (trace (world s1)).
Proof.
  intro H. rewrite getitem_run in H.
  pose proof (fill_if_empty_frame DataLoader s) as (_ & N).
  destruct (fill_if_empty DataLoader s) as [[[]|e] s1] eqn:F; [|discriminate].
  simpl in N.
  destruct (path_suffixes (patches_list (self s1))) as [sfx|e]; [|discriminate].
  cbv zeta in H.
  destruct (Py.pop (patches_list (self s1))) as [[rest p]|] eqn:P;
    [|discriminate].
  inversion H; subst patch s'. clear H.
  apply pop_some in P.
  exists s1. st_simpl.
  rewrite printed_self, printed_passes, printed_delivered, printed_samplers,
    printed_warnings.
  split; [|split; [|split; [|split]]].
  - intro E. rewrite <- F. symmetry. now apply fill_if_empty_empty.
  - intro E. rewrite (fill_if_empty_nonempty DataLoader s E) in F.
    now inversion F.
  - exact P.
  - rewrite P, length_app. simpl. lia.
  - repeat split. now rewrite N.
Qed.

(** C5.  When [max_length // samples_per_volume] is zero, a call of
    [__getitem__] on an empty buffer runs a refill that completes without
    fetching a batch or building a sampler, and then fails with the
    [IndexError] of popping from an empty list: the call returns, the buffer
    is still empty and the sampled count is unchanged.  The sampler class
    and the patch size are those of a queue that can refill at all. *)
Theorem starved_pop
  (DataLoader : nat -> list pyval -> bool -> Z -> list pyval)
  (i : pyval) (s : State) (cls : Sampler) (c k : Z) :
  sampler_class (self s) = Some cls ->
  patch_size (self s) <> PNone ->
  max_length (self s) = Some c ->
  samples_per_volume (self s) = Some k ->
  Py.floordiv (Some c) (Some k) = Ok 0%Z ->
  patches_list (self s) = [] ->
  exists s1 s',
    fill DataLoader (printed [PStr "Patches list is empty."] s) = (Ok tt, s1) /\
    delivered (world s1) = delivered (world s) /\
    samplers (world s1) = samplers (world s) /\
    passes (world s1) = passes (world s) /\
    __getitem__ DataLoader i s = (Raise IndexError, s') /\
    patches_list (self s') = [] /\
    num_sampled_patches (self s') = num_sampled_patches (self s) /\
    delivered (world s') = delivered (world s).
Proof.
  intros Hc Hp Hm Hk Hd He.
  assert (Hk0 : k <> 0%Z).
  { intros ->. discriminate. }
  assert (Hq : (c / k)%Z = 0%Z).
  { unfold Py.floordiv in Hd. apply Z.eqb_neq in Hk0. rewrite Hk0 in Hd.
    now inversion Hd. }
  assert (Hp' : is_none (patch_size (self s)) = false).
  { destruct (patch_size (self s)); try reflexivity. contradiction. }
  set (s0 := printed [PStr "Patches list is empty."] s).
  assert (F : fill DataLoader s0 = (Ok tt, after_header c k s0)).
  { unfold fill, bind.
    rewrite (@fill_header_run s0 cls c k);
      unfold s0; rewrite ?printed_self; try assumption.
    rewrite Hq. pose proof (num_subjects_nonneg (self s)).
    replace (Z.to_nat (Z.min (num_subjects (self s)) 0)) with O by lia.
    reflexivity. }
  destruct (after_header_world c k s0) as (A1 & A2 & A3).
  assert (B : patches_list (self (after_header c k s0)) = []).
  { rewrite after_header_self. unfold s0. now rewrite printed_self. }
  exists (after_header c k s0).
  eexists. split; [exact F|].
  unfold s0 in A1, A2, A3.
  rewrite printed_passes in A1. rewrite printed_delivered in A2.
  rewrite printed_samplers in A3.
  split; [exact A2|]. split; [exact A3|]. split; [exact A1|].
  rewrite getitem_run, (fill_if_empty_empty DataLoader s He).
  fold s0. rewrite F, B. simpl.
  split; [reflexivity|].
  rewrite printed_self, printed_delivered, after_header_self.
  unfold s0. rewrite printed_self.
  split; [exact He|]. split; [reflexivity|exact A2].
Qed.

(** C9.  [__len__] is the number of subjects times the samples per volume.
    It reads nothing else: it is the same for any buffer and sampled count,
    and after any number of calls of [__getitem__], whatever they return. *)
Theorem epoch_length
  (DataLoader : nat -> list pyval -> bool -> Z -> list pyval)
  (s : State) (k : Z) :
  samples_per_volume (self s) = Some k ->
  __len__ (self s) = Ok (num_subjects (self s) * k)%Z /\
  (forall l m,
     __len__ (self (set_num_sampled_patches m (set_patches_list l s))) =
     __len__ (self s)) /\
  (forall n, __len__ (self (snd (pops DataLoader n s))) = __len__ (self s)).
Proof.
  intro Hk. unfold __len__, iterations_per_epoch, num_subjects.
  split; [rewrite Hk; reflexivity|]. split.
  - intros l m. reflexivity.
  - intro n. destruct (pops_same_config DataLoader n s) as (D & _ & _ & K & _).
    now rewrite D, K.
Qed.

(** C10, as the code has it.  Line 41 builds the list of path suffixes
    before it calls [self.print], so every call of [__getitem__] reads
    ['path'] of every patch in the buffer, whether [verbose] is set or not.
    With [s1] the state after lines 38 to 40: if some patch of the buffer is
    not a dict with a [str] under ['path'], the call fails and leaves exactly
    [s1], nothing popped and nothing counted; otherwise the call pops the
    last patch and counts it, and [verbose] decides only whether the line is
    printed. *)
Theorem path_read_on_every_pop
  (DataLoader : nat -> list pyval -> bool -> Z -> list pyval)
  (i : pyval) (s s1 : State) :
  fill_if_empty DataLoader s = (Ok tt, s1) ->
  (~ Forall has_path (patches_list (self s1)) ->
   exists e, __getitem__ DataLoader i s = (Raise e, s1)) /\
  (forall rest patch,
     Forall has_path (patches_list (self s1)) ->
     patches_list (self s1) = rest ++ [patch] ->
     exists suffixes s',
       path_suffixes (patches_list (self s1)) = Ok suffixes /\
       __getitem__ DataLoader i s = (Ok patch, s') /\
       patches_list (self s') = rest /\
       num_sampled_patches (self s') =
         (num_sampled_patches (self s1) + 1)%Z /\
       trace (world s') =
         trace (world s1) ++
         (if verbose (self s1)
          then [Printed [PStr "Patches:"; PList suffixes]] else [])).
Proof.
  intro F. split.
  - intro N. rewrite getitem_run, F.
    destruct (path_suffixes (patches_list (self s1))) as [sfx|e] eqn:E.
    + exfalso. apply N. apply path_suffixes_ok. exists sfx. exact E.
    + exists e. reflexivity.
  - intros rest patch A P.
    apply path_suffixes_ok in A. destruct A as [sfx E].
    exists sfx. eexists. split; [exact E|].
    rewrite getitem_run, F, E. cbv zeta. rewrite P, pop_snoc.
    split; [reflexivity|]. st_simpl. split; [reflexivity|].
    split; [reflexivity|].
    unfold printed. destruct (verbose (self s1)); st_simpl.
    + reflexivity.
    + now rewrite app_nil_r.
Qed.

(** C7, as the code has it.  The body of [__init__] asserts nothing about
    the capacity and the samples per volume: it stores them as they come,
    [None] included, and nothing else that it does depends on them, so that
    whether a construction completes is the same whatever is passed for
    them.  [max_length] and [samples_per_volume] are required by the
    signature only: a call that leaves one out is a [TypeError].  The
    assertions are in [fill], on the sampler class and the patch size; with
    both of these set, a [None] capacity or samples per volume makes [fill]
    fail with the [TypeError] of line 78. *)
Theorem construction_checks
  (DataLoader : nat -> list pyval -> bool -> Z -> list pyval) :
  (forall ds c k c' k' ps cls nw sh vb w,
     let built := __init__ DataLoader ds c k ps cls nw sh vb w in
     let other := __init__ DataLoader ds c' k' ps cls nw sh vb w in
     fst built = fst other /\
     max_length (self (snd built)) = c /\
     samples_per_volume (self (snd built)) = k /\
     subjects_iterable (self (snd built)) =
       subjects_iterable (self (snd other)) /\
     world (snd built) = world (snd other)) /\
  (forall ds c k ps cls nw sh vb w,
     c = None \/ k = None ->
     call_Queue DataLoader ds c k ps cls nw sh vb w = Raise TypeError) /\
  (forall s,
     sampler_class (self s) = None \/ patch_size (self s) = PNone ->
     fill DataLoader s = (Raise AssertionError, s)) /\
  (forall s cls,
     sampler_class (self s) = Some cls ->
     patch_size (self s) <> PNone ->
     max_length (self s) = None \/ samples_per_volume (self s) = None ->
     fill DataLoader s = (Raise TypeError, s)).
Proof.
  split; [|split; [|split]].
  - intros. unfold built, other, __init__, bind.
    rewrite !get_subjects_iterable_run. unfold modify, next_pass, printed.
    st_simpl. destruct vb; repeat split.
  - intros ds c k ps cls nw sh vb w [-> | ->]; unfold call_Queue.
    + destruct ds; reflexivity.
    + destruct ds; [destruct c|]; reflexivity.
  - intros s H. unfold fill, bind. now rewrite (fill_header_unset s H).
  - intros s cls Hc Hp H. unfold fill, bind.
    rewrite (@fill_header_missing s cls); try assumption; [reflexivity|].
    destruct (patch_size (self s)); try reflexivity. contradiction.
Qed.

(** C4, as the code has it.  Over a dataset of zero items, a fetch restarts
    the pass once and lets the [StopIteration] of the second [next] escape,
    and the loop of the refill lets it through unchanged.  But a refill over
    such a dataset loads [min(0, ...)] subjects: it never fetches, and
    [__getitem__] then fails with the [IndexError] of popping from an empty
    list. *)
Theorem empty_source
  (DataLoader : nat -> list pyval -> bool -> Z -> list pyval) (s : State) :
  (forall i sh nw, DataLoader i [] sh nw = []) ->
  subjects_dataset (self s) = [] ->
  subjects_iterable (self s) = [] ->
  get_next_subject_sample DataLoader s =
    (Raise StopIteration, restarted DataLoader s) /\
  passes (world (restarted DataLoader s)) = S (passes (world s)) /\
  (forall n,
     fill_loop DataLoader (S n) s =
     (Raise StopIteration, restarted DataLoader s)) /\
  (forall i cls c k,
     sampler_class (self s) = Some cls ->
     patch_size (self s) <> PNone ->
     max_length (self s) = Some c ->
     samples_per_volume (self s) = Some k ->
     k <> 0%Z ->
     patches_list (self s) = [] ->
     exists s',
       __getitem__ DataLoader i s = (Raise IndexError, s') /\
       passes (world s') = passes (world s) /\
       delivered (world s') = delivered (world s)).
Proof.
  intros HL Hd Hi.
  assert (N : next_pass DataLoader s = []).
  { unfold next_pass. rewrite Hd. apply HL. }
  assert (G : get_next_subject_sample DataLoader s =
              (Raise StopIteration, restarted DataLoader s))
    by (apply gnss_restart_nil; assumption).
  split; [exact G|]. split.
  { unfold restarted. st_simpl. now rewrite !printed_passes. }
  split.
  { intro n. simpl. unfold bind at 1. now rewrite G. }
  intros i cls c k Hc Hp Hm Hk Hk0 He.
  assert (Hp' : is_none (patch_size (self s)) = false).
  { destruct (patch_size (self s)); try reflexivity. contradiction. }
  set (s0 := printed [PStr "Patches list is empty."] s).
  assert (F : fill DataLoader s0 = (Ok tt, after_header c k s0)).
  { unfold fill, bind.
    rewrite (@fill_header_run s0 cls c k);
      unfold s0; rewrite ?printed_self; try assumption.
    unfold num_subjects. rewrite Hd. simpl List.length.
    replace (Z.to_nat (Z.min (Z.of_nat 0) (c / k))) with O by lia.
    reflexivity. }
  destruct (after_header_world c k s0) as (A1 & A2 & _).
  eexists.
  rewrite getitem_run, (fill_if_empty_empty DataLoader s He).
  fold s0. rewrite F.
  assert (B : patches_list (self (after_header c k s0)) = []).
  { rewrite after_header_self. unfold s0. now rewrite printed_self. }
  rewrite B. simpl. split; [reflexivity|].
  rewrite printed_passes, printed_delivered, A1, A2.
  unfold s0. now rewrite printed_passes, printed_delivered.
Qed.

(** ** A source item of the wrong shape *)

Lemma check_bad_shape (batch sample : pyval) (shape : list nat) :
  squeeze_batch batch 0 = Ok sample ->
  Py.getitem_key sample "image" = Ok (PTensor shape) ->
  List.length shape <> 4%nat ->
  check_subject_batch batch = Raise AssertionError.
Proof.
  intros Hs Hi Hn. unfold check_subject_batch.
  rewrite Hs. simpl. rewrite Hi. simpl.
  apply Nat.eqb_neq in Hn. now rewrite Hn.
Qed.

Lemma fill_loop_app
  (DataLoader : nat -> list pyval -> bool -> Z -> list pyval)
  (j m : nat) (s : State) :
  fill_loop DataLoader (j + m) s =
  match fill_loop DataLoader j s with
  | (Ok _, s1) => fill_loop DataLoader m s1
  | (Raise e, s1) => (Raise e, s1)
  end.
Proof.
  revert s. induction j as [|j IH]; intro s.
  - reflexivity.
  - simpl. unfold bind at 1 3.
    destruct (get_next_subject_sample DataLoader s) as [[sample|e] s1];
      [|reflexivity].
    unfold bind at 1 2.
    destruct (extend_from sample s1) as [[[]|e] s2]; [|reflexivity].
    apply IH.
Qed.

(** C6, as the code has it.  Take a refill that has drawn and expanded [j]
    items and is to draw more, and let the next batch have an image that,
    once the batch axis is stripped, is a tensor of other than four axes.
    The refill then raises [AssertionError]; it has fetched that one batch
    and no other, built no sampler for it and appended nothing for it: the
    buffer is as the [j] earlier items left it, which, when the item is the
    first one drawn, is as the refill found it. *)
Theorem shape_rejection
  (DataLoader : nat -> list pyval -> bool -> Z -> list pyval)
  (s s1 : State) (cls : Sampler) (c k : Z) (j : nat)
  (batch sample : pyval) (shape : list nat) :
  sampler_class (self s) = Some cls ->
  patch_size (self s) <> PNone ->
  max_length (self s) = Some c ->
  samples_per_volume (self s) = Some k ->
  k <> 0%Z ->
  (j < Z.to_nat (Z.min (num_subjects (self s)) (c / k)))%nat ->
  fill_loop DataLoader j (after_header c k s) = (Ok tt, s1) ->
  peek DataLoader s1 = Some batch ->
  squeeze_batch batch 0 = Ok sample ->
  Py.getitem_key sample "image" = Ok (PTensor shape) ->
  List.length shape <> 4%nat ->
  exists s',
    fill DataLoader s = (Raise AssertionError, s') /\
    patches_list (self s') = patches_list (self s1) /\
    delivered (world s') = S (delivered (world s) + j) /\
    samplers (world s') = (samplers (world s) + j)%nat /\
    (j = O -> patches_list (self s') = patches_list (self s)).
Proof.
  intros Hc Hp Hm Hk Hk0 Hj L P Hs Hi Hn.
  assert (Hp' : is_none (patch_size (self s)) = false).
  { destruct (patch_size (self s)); try reflexivity. contradiction. }
  pose proof (check_bad_shape batch Hs Hi Hn) as B.
  destruct (gnss_some DataLoader s1 P) as (s' & G & _ & Pl & Sm & Dl & _).
  rewrite B in G.
  assert (Hk' : samples_per_volume (self (after_header c k s)) = Some k)
    by (rewrite after_header_self; exact Hk).
  destruct (fill_loop_ok DataLoader _ _ Hk' L) as (D1 & S1 & _).
  destruct (after_header_world c k s) as (_ & Dh & Sh).
  exists s'. split.
  - unfold fill, bind. rewrite (fill_header_run s Hc Hp' Hm Hk Hk0).
    set (n := Z.to_nat (Z.min (num_subjects (self s)) (c / k))) in *.
    replace n with (j + S (n - S j))%nat by lia.
    rewrite fill_loop_app, L. simpl. unfold bind at 1. now rewrite G.
  - split; [exact Pl|]. split; [rewrite Dl, D1, Dh; reflexivity|].
    split; [rewrite Sm, S1, Sh; reflexivity|].
    intros ->. simpl in L. inversion L; subst s1.
    rewrite Pl. now rewrite after_header_self.
Qed.

(** ** No exhaustion reaches the caller *)

Lemma no_stop_raise {A} (B : Type) (e : exn) :
  @no_stop A (Raise e) -> @no_stop B (Raise e).
Proof. unfold no_stop. intros H E. apply H. inversion E. reflexivity. Qed.

Lemma rbind_no_stop {A B} (r : result A) (k : A -> result B) :
  no_stop r -> (forall a, no_stop (k a)) -> no_stop (rbind r k).
Proof.
  unfold no_stop. intros Hr Hk. destruct r as [a|e]; simpl.
  - apply Hk.
  - intro H. apply Hr. inversion H. reflexivity.
Qed.

Lemma getitem_idx_no_stop (value : pyval) (idx : nat) :
  no_stop (Py.getitem_idx value idx).
Proof.
  unfold no_stop, Py.getitem_idx.
  destruct value as [| | s | shape | l | d]; try discriminate.
  - destruct (String.get idx s); discriminate.
  - destruct shape as [|d shape]; [discriminate|].
    destruct (Nat.ltb idx d); discriminate.
  - destruct (nth_error l idx); discriminate.
Qed.

Lemma getitem_key_no_stop (value : pyval) (key : string) :
  no_stop (Py.getitem_key value key).
Proof.
  unfold no_stop, Py.getitem_key.
  destruct value as [| | s | shape | l | d]; try discriminate.
  destruct (Py.assoc key d); discriminate.
Qed.

Lemma squeeze_items_no_stop (items batch : list (string * pyval)) (idx : nat) :
  no_stop (squeeze_items items idx batch).
Proof.
  revert batch. induction items as [|[key value] rest IH]; intro batch; simpl.
  - discriminate.
  - apply rbind_no_stop; [apply getitem_idx_no_stop|]. intro v. apply IH.
Qed.

Lemma check_subject_batch_no_stop (batch : pyval) :
  no_stop (check_subject_batch batch).
Proof.
  unfold check_subject_batch. apply rbind_no_stop.
  - unfold squeeze_batch. destruct batch; try discriminate.
    apply rbind_no_stop; [apply squeeze_items_no_stop|]. discriminate.
  - intro sample. apply rbind_no_stop; [apply getitem_key_no_stop|].
    intro image. apply rbind_no_stop; [destruct image; discriminate|].
    intros _. apply rbind_no_stop; [apply getitem_key_no_stop|].
    intro image'. apply rbind_no_stop; [destruct image'; discriminate|].
    intro n. destruct (Nat.eqb n 4); discriminate.
Qed.

Lemma path_suffixes_no_stop (patches : list pyval) :
  no_stop (path_suffixes patches).
Proof.
  unfold path_suffixes. induction patches as [|p l IH]; simpl.
  - discriminate.
  - apply rbind_no_stop.
    + apply rbind_no_stop; [apply getitem_key_no_stop|].
      intro v. unfold Py.split_last. destruct v; try discriminate.
      destruct (rev _); discriminate.
    + intro w. apply rbind_no_stop; [exact IH|]. discriminate.
Qed.

Lemma fill_header_no_stop (s : State) : no_stop (fst (fill_header s)).
Proof.
  destruct (sampler_class (self s)) as [cls|] eqn:Hc.
  2:{ rewrite fill_header_unset by now left. discriminate. }
  destruct (is_none (patch_size (self s))) eqn:Hp.
  { rewrite fill_header_unset; [discriminate|].
    right. destruct (patch_size (self s)); (discriminate || reflexivity). }
  destruct (max_length (self s)) as [c|] eqn:Hm.
  2:{ rewrite (fill_header_missing s Hc Hp) by now left. discriminate. }
  destruct (samples_per_volume (self s)) as [k|] eqn:Hk.
  2:{ rewrite (fill_header_missing s Hc Hp) by now right. discriminate. }
  destruct (Z.eq_dec k 0) as [->|Hk0].
  - rewrite (fill_header_zero s Hc Hp Hm Hk). discriminate.
  - rewrite (fill_header_run s Hc Hp Hm Hk Hk0). discriminate.
Qed.

Lemma extend_from_no_stop (s : State) (sample : pyval) :
  no_stop (fst (extend_from sample s)).
Proof.
  unfold extend_from, bind, gets.
  destruct (sampler_class (self s)) as [cls|]; [|discriminate].
  unfold modify. st_simpl.
  destruct (samples_per_volume (self s)) as [k|]; [|discriminate].
  unfold lift, Py.islice.
  destruct (Z.leb 0 k && Z.leb k Py.maxsize)%bool; discriminate.
Qed.

Section NoStarvation.

Variable DataLoader : nat -> list pyval -> bool -> Z -> list pyval.

(** A pass over the dataset yields one batch per item. *)
Hypothesis DataLoader_length :
  forall i ds sh nw, List.length (DataLoader i ds sh nw) = List.length ds.

Lemma peek_supplied (s : State) :
  subjects_dataset (self s) <> [] -> exists batch, peek DataLoader s = Some batch.
Proof.
  intro H. unfold peek.
  destruct (subjects_iterable (self s)) as [|b rest]; [|now exists b].
  unfold next_pass.
  pose proof (DataLoader_length (passes (world s)) (subjects_dataset (self s))
                (shuffle_dataset (self s)) (num_workers (self s))) as L.
  destruct (DataLoader _ _ _ _) as [|b rest]; [|now exists b].
  destruct (subjects_dataset (self s)); [contradiction|discriminate].
Qed.

Lemma gnss_no_stop (s : State) :
  subjects_dataset (self s) <> [] ->
  no_stop (fst (get_next_subject_sample DataLoader s)).
Proof.
  intro H. destruct (peek_supplied s H) as [b P].
  destruct (gnss_some DataLoader s P) as (s' & G & _).
  rewrite G. apply check_subject_batch_no_stop.
Qed.

Lemma fill_loop_no_stop (n : nat) (s : State) :
  subjects_dataset (self s) <> [] ->
  no_stop (fst (fill_loop DataLoader n s)).
Proof.
  revert s. induction n as [|n IH]; intros s H; simpl.
  - discriminate.
  - unfold bind at 1.
    pose proof (gnss_no_stop s H) as G.
    pose proof (gnss_frame DataLoader s) as ((D1 & _) & _).
    destruct (get_next_subject_sample DataLoader s) as [[sample|e] s1];
      [|exact (@no_stop_raise _ _ _ G)].
    unfold bind at 1. simpl in D1.
    pose proof (extend_from_no_stop s1 sample) as X.
    pose proof (extend_from_frame s1 sample) as ((D2 & _) & _).
    destruct (extend_from sample s1) as [[[]|e] s2]; [|exact (@no_stop_raise _ _ _ X)].
    simpl in D2. apply IH. congruence.
Qed.

Lemma fill_no_stop (s : State) :
  subjects_dataset (self s) <> [] -> no_stop (fst (fill DataLoader s)).
Proof.
  intro H. unfold fill, bind.
  pose proof (fill_header_no_stop s) as N.
  pose proof (fill_header_frame s) as (Hs & _).
  destruct (fill_header s) as [[n|e] s0]; [|exact (@no_stop_raise _ _ _ N)].
  simpl in Hs. apply fill_loop_no_stop. now rewrite Hs.
Qed.

Lemma getitem_no_stop (i : pyval) (s : State) :
  subjects_dataset (self s) <> [] ->
  no_stop (fst (__getitem__ DataLoader i s)).
Proof.
  intro H. rewrite getitem_run.
  assert (F : no_stop (fst (fill_if_empty DataLoader s))).
  { destruct (patches_list (self s)) as [|p l] eqn:E.
    - rewrite (fill_if_empty_empty DataLoader s E).
      apply fill_no_stop. now rewrite printed_self.
    - rewrite fill_if_empty_nonempty by (rewrite E; discriminate).
      discriminate. }
  destruct (fill_if_empty DataLoader s) as [[u|e] s1]; [|exact (@no_stop_raise _ _ _ F)].
  pose proof (path_suffixes_no_stop (patches_list (self s1))) as N.
  destruct (path_suffixes (patches_list (self s1))) as [sfx|e]; [|exact (@no_stop_raise _ _ _ N)].
  cbv zeta. destruct (Py.pop _) as [[rest patch]|]; discriminate.
Qed.

Lemma pops_no_stop (n : nat) (s : State) :
  subjects_dataset (self s) <> [] ->
  no_stop (fst (pops DataLoader n s)).
Proof.
  revert s. induction n as [|n IH]; intros s H; simpl.
  - discriminate.
  - unfold bind at 1.
    pose proof (getitem_no_stop PNone s H) as G.
    pose proof (getitem_same_config DataLoader PNone s) as (D & _).
    destruct (__getitem__ DataLoader PNone s) as [[p|e] s1]; [|exact (@no_stop_raise _ _ _ G)].
    simpl in D. unfold bind.
    assert (H1 : subjects_dataset (self s1) <> []) by congruence.
    specialize (IH s1 H1).
    destruct (pops DataLoader n s1) as [[ps|e] s2]; [discriminate|exact (@no_stop_raise _ _ _ IH)].
Qed.

End NoStarvation.

(** C3.  Over a dataset that has at least one item, and a loader that yields
    one batch per item in every pass, no run of calls of [__getitem__]
    raises [StopIteration], in particular not a run of three times
    [__len__] calls: when the cursor is exhausted, a fetch builds a new pass
    and takes its first batch, and that is what the caller of the fetch
    gets. *)
Theorem no_starvation
  (DataLoader : nat -> list pyval -> bool -> Z -> list pyval) (s : State) :
  (forall i ds sh nw, List.length (DataLoader i ds sh nw) = List.length ds) ->
  (0 < num_subjects (self s))%Z ->
  (forall n, fst (pops DataLoader n s) <> Raise StopIteration) /\
  (forall len,
     __len__ (self s) = Ok len ->
     fst (pops DataLoader (Z.to_nat (len * 3)) s) <> Raise StopIteration) /\
  (subjects_iterable (self s) = [] ->
   exists batch rest,
     next_pass DataLoader s = batch :: rest /\
     get_next_subject_sample DataLoader s =
       (check_subject_batch batch,
        tick_delivered (set_subjects_iterable rest (restarted DataLoader s))) /\
     passes (world (restarted DataLoader s)) = S (passes (world s))).
Proof.
  intros HL Hn.
  assert (Hd : subjects_dataset (self s) <> []).
  { unfold num_subjects in Hn. destruct (subjects_dataset (self s));
      [simpl in Hn; lia | discriminate]. }
  split; [|split].
  - intro n. now apply pops_no_stop.
  - intros len _. now apply pops_no_stop.
  - intro E. destruct (peek_supplied DataLoader HL s Hd) as [b P].
    unfold peek in P. rewrite E in P.
    destruct (next_pass DataLoader s) as [|b' rest] eqn:N; [discriminate|].
    inversion P; subst b'. exists b, rest. split; [reflexivity|].
    split; [now apply gnss_restart_cons|].
    unfold restarted. st_simpl. now rewrite !printed_passes.
Qed.

(** ** Construction *)

Lemma init_run (DataLoader : nat -> list pyval -> bool -> Z -> list pyval)
  (ds : list pyval) (c k : option Z) (ps : pyval) (cls : option Sampler)
  (nw : Z) (sh vb : bool) (w : World) :
  __init__ DataLoader ds c k ps cls nw sh vb w =
  let s0 := mkState (mkQueue ds c sh k cls ps nw vb [] [] 0) w in
  (Ok tt,
   set_num_sampled_patches 0
     (set_patches_list []
        (set_subjects_iterable (next_pass DataLoader s0)
           (tick_passes
              (printed
                 [PStr (String "010"%char "Creating subjects loader with");
                  PInt nw; PStr "workers"] s0))))).
Proof.
  unfold __init__, bind at 1. rewrite get_subjects_iterable_run. reflexivity.
Qed.

(** ** Runs that never fail *)

Lemma take_from_forall (Q : pyval -> Prop) (it : Py.iterator) (fuel i : nat) :
  (forall j p, it j = Some p -> Q p) -> Forall Q (Py.take_from it i fuel).
Proof.
  intro H. revert i. induction fuel as [|fuel IH]; intro i; simpl.
  - constructor.
  - destruct (it i) as [p|] eqn:E; constructor; [eapply H; exact E | apply IH].
Qed.

Section GoodRuns.

Variable DataLoader : nat -> list pyval -> bool -> Z -> list pyval.
Variable ds : list pyval.
Variable cls : Sampler.
Variable ps : pyval.
Variables c k : Z.

(** The dataset has an item; every pass yields one acceptable batch per
    item; for an accepted sample the sampler yields at least one patch, and
    only patches that carry a path; the samples per volume are a positive
    count that fits at least once in the capacity. *)
Hypothesis ds_nonempty : ds <> [].
Hypothesis pass_length :
  forall i sh nw, List.length (DataLoader i ds sh nw) = List.length ds.
Hypothesis pass_good :
  forall i sh nw, Forall good_batch (DataLoader i ds sh nw).
Hypothesis sampler_first :
  forall i batch sample,
    check_subject_batch batch = Ok sample ->
    exists p, cls i sample ps O = Some p.
Hypothesis sampler_paths :
  forall i batch sample j p,
    check_subject_batch batch = Ok sample ->
    cls i sample ps j = Some p -> has_path p.
Hypothesis ps_set : ps <> PNone.
Hypothesis k_range : (0 < k <= Py.maxsize)%Z.
Hypothesis k_fits : (k <= c)%Z.

Lemma configured_same (q q' : Queue) :
  same_config q q' -> configured ds cls ps c k q -> configured ds cls ps c k q'.
Proof.
  unfold same_config, configured.
  intros (A1 & A2 & _ & A4 & A5 & A6 & _) (B1 & B2 & B3 & B4 & B5).
  repeat split; congruence.
Qed.

Lemma ready_printed (args : list pyval) (s : State) :
  ready ds cls ps c k s -> ready ds cls ps c k (printed args s).
Proof. unfold ready. now rewrite printed_self. Qed.

Lemma gnss_ready (s : State) :
  ready ds cls ps c k s ->
  exists batch sample s1,
    get_next_subject_sample DataLoader s = (Ok sample, s1) /\
    check_subject_batch batch = Ok sample /\
    ready ds cls ps c k s1 /\
    patches_list (self s1) = patches_list (self s).
Proof.
  intros (C & I & P).
  assert (Hd : subjects_dataset (self s) <> []).
  { destruct C as (-> & _). exact ds_nonempty. }
  assert (HL : forall i d sh nw,
             d = ds -> List.length (DataLoader i d sh nw) = List.length d).
  { intros i d sh nw ->. apply pass_length. }
  assert (Pk : exists b, peek DataLoader s = Some b).
  { unfold peek. destruct (subjects_iterable (self s)) as [|b r]; [|now exists b].
    unfold next_pass. destruct C as (Cd & _). rewrite Cd.
    pose proof (pass_length (passes (world s)) (shuffle_dataset (self s))
                  (num_workers (self s))) as L.
    destruct (DataLoader _ ds _ _) as [|b r]; [|now exists b].
    destruct ds; [contradiction|discriminate]. }
  destruct Pk as [b Pk].
  destruct (gnss_some DataLoader s Pk) as (s1 & G & F & Pl & _ & _ & rest & R & Hr).
  assert (Gb : Forall good_batch (b :: rest)).
  { destruct Hr as [Hr | [_ Hr]].
    - rewrite <- Hr. exact I.
    - unfold next_pass in Hr. destruct C as (Cd & _). rewrite Cd in Hr.
      rewrite <- Hr. apply pass_good. }
  inversion Gb as [|? ? [sample Hs] Gr]; subst.
  exists b, sample, s1. rewrite Hs in G.
  split; [exact G|]. split; [exact Hs|]. split; [|exact Pl].
  split; [|split].
  - eapply configured_same; [apply F | exact C].
  - exact Gr.
  - rewrite Pl. exact P.
Qed.

Lemma extend_ready (s : State) (batch sample : pyval) :
  ready ds cls ps c k s ->
  check_subject_batch batch = Ok sample ->
  exists s2,
    extend_from sample s = (Ok tt, s2) /\ ready ds cls ps c k s2 /\
    patches_list (self s2) <> [].
Proof.
  intros (C & I & P) Hs.
  pose proof C as (Cd & Cm & Ck & Cc & Cp).
  rewrite (extend_from_run s sample Cc Ck). rewrite Cp.
  unfold Py.islice.
  assert (B : (Z.leb 0 k && Z.leb k Py.maxsize)%bool = true).
  { apply andb_true_iff. split; apply Z.leb_le; lia. }
  rewrite B. eexists. split; [reflexivity|]. st_simpl.
  destruct (sampler_first (samplers (world s)) batch Hs) as [p Hp].
  split.
  - split; [exact C|]. split; [exact I|]. st_simpl.
    apply Forall_app. split; [exact P|].
    apply take_from_forall. intros j q Hq.
    eapply sampler_paths; eassumption.
  - destruct (Z.to_nat k) as [|n] eqn:E; [lia|].
    simpl. rewrite Hp. destruct (patches_list (self s)); discriminate.
Qed.

Lemma fill_loop_ready (n : nat) (s : State) :
  ready ds cls ps c k s ->
  exists s',
    fill_loop DataLoader n s = (Ok tt, s') /\ ready ds cls ps c k s' /\
    ((0 < n)%nat -> patches_list (self s') <> []).
Proof.
  revert s. induction n as [|n IH]; intros s R.
  - exists s. split; [reflexivity|]. split; [exact R|]. lia.
  - destruct (@gnss_ready s R) as (b & sample & s1 & G & Hs & R1 & _).
    destruct (@extend_ready s1 b sample R1 Hs) as (s2 & X & R2 & N2).
    destruct (IH s2 R2) as (s' & L & R' & _).
    exists s'. simpl. unfold bind at 1. rewrite G.
    unfold bind at 1. rewrite X. split; [exact L|]. split; [exact R'|].
    intros _.
    pose proof (fill_loop_frame DataLoader n s2) as (_ & _ & _ & [x Hx] & _).
    rewrite L in Hx. simpl in Hx. rewrite Hx.
    destruct (patches_list (self s2)); [contradiction|discriminate].
Qed.

Lemma fill_ready (s : State) :
  ready ds cls ps c k s ->
  patches_list (self s) = [] ->
  exists s1,
    fill DataLoader s = (Ok tt, s1) /\ ready ds cls ps c k s1 /\
    patches_list (self s1) <> [] /\
    (Z.of_nat (List.length (patches_list (self s1))) <= c / k * k)%Z /\
    warnings_of (trace (world s1)) =
      warnings_of (trace (world s)) ++
      (if Z.eqb (c mod k) 0 then [] else [divisibility_warning c k]).
Proof.
  intros R He. pose proof R as ((Cd & Cm & Ck & Cc & Cp) & _).
  assert (Hp : is_none (patch_size (self s)) = false).
  { rewrite Cp. destruct ps; try reflexivity. contradiction. }
  assert (Hk0 : k <> 0%Z) by lia.
  set (n := Z.to_nat (Z.min (num_subjects (self s)) (c / k))).
  assert (R0 : ready ds cls ps c k (after_header c k s)).
  { unfold ready. rewrite after_header_self. exact R. }
  destruct (@fill_loop_ready n _ R0) as (s1 & L & R1 & N1).
  exists s1. split.
  { unfold fill, bind. rewrite (fill_header_run s Cc Hp Cm Ck Hk0). exact L. }
  split; [exact R1|].
  assert (Hq : (1 <= c / k)%Z).
  { apply Z.div_le_lower_bound; lia. }
  assert (Hn : (1 <= num_subjects (self s))%Z).
  { unfold num_subjects. rewrite Cd.
    destruct ds; [contradiction | simpl List.length; lia]. }
  split; [apply N1; unfold n; lia|].
  assert (Hk' : samples_per_volume (self (after_header c k s)) = Some k)
    by (rewrite after_header_self; exact Ck).
  destruct (fill_loop_ok DataLoader _ _ Hk' L) as (_ & _ & groups & Lg & Pg & Fg).
  rewrite after_header_self, He in Pg. simpl in Pg.
  split.
  - rewrite Pg. pose proof (concat_length_le Fg) as B. rewrite Lg in B.
    assert (Z.of_nat n <= c / k)%Z by (unfold n; lia).
    nia.
  - pose proof (fill_loop_frame DataLoader n (after_header c k s))
      as (_ & _ & W & _).
    rewrite L in W. simpl in W. rewrite W. apply after_header_warnings.
Qed.

Lemma getitem_ready (i : pyval) (s : State) :
  ready ds cls ps c k s ->
  exists patch s', __getitem__ DataLoader i s = (Ok patch, s') /\ ready ds cls ps c k s'.
Proof.
  intro R.
  assert (F : exists s1,
             fill_if_empty DataLoader s = (Ok tt, s1) /\ ready ds cls ps c k s1 /\
             patches_list (self s1) <> []).
  { destruct (patches_list (self s)) as [|p l] eqn:E.
    - rewrite (fill_if_empty_empty DataLoader s E).
      destruct (@fill_ready (printed [PStr "Patches list is empty."] s))
        as (s1 & F & R1 & N1 & _).
      + now apply ready_printed.
      + now rewrite printed_self.
      + exists s1. repeat split; assumption || apply R1.
    - exists s. rewrite fill_if_empty_nonempty by (rewrite E; discriminate).
      split; [reflexivity|]. split; [exact R|]. rewrite E. discriminate. }
  destruct F as (s1 & F & (C1 & I1 & P1) & N1).
  rewrite getitem_run, F.
  destruct (proj2 (path_suffixes_ok _) P1) as [sfx Hs]. rewrite Hs. cbv zeta.
  destruct (Py.pop (patches_list (self s1))) as [[rest patch]|] eqn:P.
  - exists patch. eexists. split; [reflexivity|].
    unfold ready. st_simpl. rewrite printed_self.
    split; [exact C1|]. split; [exact I1|].
    apply pop_some in P. rewrite P in P1.
    apply Forall_app in P1. apply P1.
  - apply pop_none in P. contradiction.
Qed.

Lemma pops_ready (n : nat) (s : State) :
  ready ds cls ps c k s ->
  exists patches s', pops DataLoader n s = (Ok patches, s') /\ ready ds cls ps c k s'.
Proof.
  revert s. induction n as [|n IH]; intros s R.
  - exists [], s. split; [reflexivity|exact R].
  - destruct (@getitem_ready PNone s R) as (p & s1 & G & R1).
    destruct (IH s1 R1) as (l & s' & L & R').
    exists (p :: l), s'. simpl. unfold bind at 1. rewrite G.
    unfold bind at 1. rewrite L. split; [reflexivity|exact R'].
Qed.

Lemma init_ready (nw : Z) (sh vb : bool) (w : World) :
  fst (__init__ DataLoader ds (Some c) (Some k) ps (Some cls) nw sh vb w) =
    Ok tt /\
  ready ds cls ps c k (snd (__init__ DataLoader ds (Some c) (Some k) ps (Some cls) nw sh vb w)) /\
  warnings_of
    (trace (world (snd (__init__ DataLoader ds (Some c) (Some k) ps (Some cls)
                          nw sh vb w)))) = warnings_of (trace w).
Proof.
  rewrite init_run. st_simpl.
  split; [reflexivity|]. split.
  - unfold ready, configured. st_simpl. rewrite printed_self. st_simpl.
    repeat split; try constructor. unfold next_pass. st_simpl. apply pass_good.
  - rewrite printed_warnings. reflexivity.
Qed.

End GoodRuns.

(** C8, as the code has it.  With capacity 10 and three samples per volume,
    the constructor completes and warns of nothing: the warning that the one
    is not divisible by the other is raised by [fill], once in every refill,
    and the refill goes on.  Over a dataset that has an item, a loader that
    yields one acceptable batch per item, and a sampler that yields at least
    one patch per sample and only patches that carry a path, every run of
    calls of [__getitem__] succeeds, and a refill that follows it leaves
    between one and nine patches in the buffer. *)
Theorem indivisible_capacity
  (DataLoader : nat -> list pyval -> bool -> Z -> list pyval)
  (ds : list pyval) (cls : Sampler) (ps : pyval) (nw : Z) (sh vb : bool)
  (w : World) :
  ds <> [] ->
  (forall i sh nw, List.length (DataLoader i ds sh nw) = List.length ds) ->
  (forall i sh nw, Forall good_batch (DataLoader i ds sh nw)) ->
  (forall i batch sample,
     check_subject_batch batch = Ok sample ->
     exists p, cls i sample ps O = Some p) ->
  (forall i batch sample j p,
     check_subject_batch batch = Ok sample ->
     cls i sample ps j = Some p -> has_path p) ->
  ps <> PNone ->
  let built :=
    __init__ DataLoader ds (Some 10%Z) (Some 3%Z) ps (Some cls) nw sh vb w in
  fst built = Ok tt /\
  warnings_of (trace (world (snd built))) = warnings_of (trace w) /\
  forall n,
    exists patches s,
      pops DataLoader n (snd built) = (Ok patches, s) /\
      (patches_list (self s) = [] ->
       exists s1,
         fill DataLoader (printed [PStr "Patches list is empty."] s) =
           (Ok tt, s1) /\
         warnings_of (trace (world s1)) =
           warnings_of (trace (world s)) ++ [divisibility_warning 10 3] /\
         (0 < List.length (patches_list (self s1)) <= 9)%nat).
Proof.
  intros Hd HL HG HF HP Hps built.
  assert (Hk : (0 < 3 <= Py.maxsize)%Z) by (unfold Py.maxsize; lia).
  assert (Hc : (3 <= 10)%Z) by lia.
  destruct (@init_ready DataLoader ds cls ps 10 3 HG nw sh vb w)
    as (I1 & I2 & I3).
  fold built in I1, I2, I3.
  split; [exact I1|]. split; [exact I3|].
  intro n.
  destruct (@pops_ready DataLoader ds cls ps 10 3 Hd HL HG HF HP Hps Hk Hc
              n (snd built) I2) as (patches & s & L & R).
  exists patches, s. split; [exact L|].
  intro E.
  destruct (@fill_ready DataLoader ds cls ps 10 3 Hd HL HG HF HP Hps Hk Hc
              (printed [PStr "Patches list is empty."] s))
    as (s1 & F & _ & N1 & B1 & W1).
  - now apply ready_printed.
  - now rewrite printed_self.
  - exists s1. split; [exact F|]. rewrite printed_warnings in W1.
    split; [exact W1|].
    change (10 / 3 * 3)%Z with 9%Z in B1.
    destruct (patches_list (self s1)); [contradiction|simpl in *; lia].
Qed.

(** ** The properties on concrete queues *)

Lemma seq_loader_length (i : nat) (ds : list pyval) (sh : bool) (nw : Z) :
  List.length (Fixtures.seq_loader i ds sh nw) = List.length ds.
Proof. unfold Fixtures.seq_loader. apply length_map. Qed.

Lemma seq_loader_good (i : nat) (sh : bool) (nw : Z) :
  Forall good_batch (Fixtures.seq_loader i Fixtures.four_subjects sh nw).
Proof. repeat constructor; eexists; reflexivity. Qed.

Lemma endless_sampler_first (i : nat) (batch sample : pyval) :
  check_subject_batch batch = Ok sample ->
  exists p, Fixtures.endless_sampler i sample (PInt 2) O = Some p.
Proof. intros _. eexists. reflexivity. Qed.

Lemma endless_sampler_paths (i : nat) (batch sample : pyval) (j : nat)
  (p : pyval) :
  check_subject_batch batch = Ok sample ->
  Fixtures.endless_sampler i sample (PInt 2) j = Some p -> has_path p.
Proof.
  intros _ H. unfold Fixtures.endless_sampler in H. inversion H.
  eexists. eexists. split; reflexivity.
Qed.

Lemma refill_sizing_witness :
  (num_patches
     (self (snd (fill Fixtures.seq_loader Fixtures.queue_4_2))) <= 4)%Z.
Proof.
  refine (proj2 (proj2
    (@refill_sizing Fixtures.seq_loader Fixtures.queue_4_2
       (snd (fill Fixtures.seq_loader Fixtures.queue_4_2)) 4 2
       eq_refl eq_refl eq_refl _ _ eq_refl))); lia.
Defined.

Lemma pop_next_contract_witness :
  num_sampled_patches
    (self (snd (__getitem__ Fixtures.seq_loader PNone Fixtures.queue_4_2))) =
  1%Z.
Proof.
  destruct
    (@pop_next_contract Fixtures.seq_loader PNone Fixtures.queue_4_2
       (snd (__getitem__ Fixtures.seq_loader PNone Fixtures.queue_4_2))
       (Fixtures.patch_named "b_patch") eq_refl)
    as (s1 & _ & _ & _ & _ & H & _).
  exact H.
Defined.

Lemma no_starvation_witness :
  fst (pops Fixtures.seq_loader 24 Fixtures.queue_4_2) <> Raise StopIteration.
Proof.
  refine (proj1
    (@no_starvation Fixtures.seq_loader Fixtures.queue_4_2
       seq_loader_length _) 24%nat).
  reflexivity.
Defined.

Lemma empty_source_witness :
  fst (get_next_subject_sample Fixtures.seq_loader Fixtures.queue_empty) =
  Raise StopIteration.
Proof.
  rewrite (proj1
    (@empty_source Fixtures.seq_loader Fixtures.queue_empty
       (fun _ _ _ => eq_refl) eq_refl eq_refl)).
  reflexivity.
Defined.

Lemma starved_pop_witness :
  fst (__getitem__ Fixtures.seq_loader PNone Fixtures.queue_2_3) =
  Raise IndexError.
Proof.
  destruct
    (@starved_pop Fixtures.seq_loader PNone Fixtures.queue_2_3
       Fixtures.endless_sampler 2 3 eq_refl
       ltac:(discriminate) eq_refl eq_refl eq_refl eq_refl)
    as (s1 & s' & _ & _ & _ & _ & H & _).
  rewrite H. reflexivity.
Defined.

Lemma shape_rejection_witness :
  fst (fill Fixtures.seq_loader Fixtures.queue_flat_second) =
  Raise AssertionError.
Proof.
  destruct
    (@shape_rejection Fixtures.seq_loader Fixtures.queue_flat_second
       (snd (fill_loop Fixtures.seq_loader 1
               (after_header 4 2 Fixtures.queue_flat_second)))
       Fixtures.endless_sampler 4 2 1
       (Fixtures.batch_of Fixtures.flat_subject)
       Fixtures.flat_subject [8; 8; 8]%nat
       eq_refl ltac:(discriminate) eq_refl eq_refl ltac:(discriminate)
       (le_n 2) eq_refl eq_refl eq_refl eq_refl ltac:(discriminate))
    as (s' & H & _).
  rewrite H. reflexivity.
Defined.

Lemma construction_checks_witness :
  fill Fixtures.seq_loader
    (snd (__init__ Fixtures.seq_loader Fixtures.four_subjects (Some 4%Z)
            (Some 2%Z) (PInt 2) None 0 false false Fixtures.world0)) =
  (Raise AssertionError,
   snd (__init__ Fixtures.seq_loader Fixtures.four_subjects (Some 4%Z)
          (Some 2%Z) (PInt 2) None 0 false false Fixtures.world0)).
Proof.
  apply (proj1 (proj2 (proj2 (construction_checks Fixtures.seq_loader)))).
  left. reflexivity.
Defined.

Lemma indivisible_capacity_witness :
  exists patches s,
    pops Fixtures.seq_loader 12 Fixtures.queue_10_3 = (Ok patches, s).
Proof.
  destruct
    (proj2 (proj2
      (@indivisible_capacity Fixtures.seq_loader Fixtures.four_subjects
         Fixtures.endless_sampler (PInt 2) 0 false false Fixtures.world0
         ltac:(discriminate) (fun i => seq_loader_length i _)
         seq_loader_good endless_sampler_first endless_sampler_paths
         ltac:(discriminate))) 12%nat)
    as (patches & s & H & _).
  exists patches, s. exact H.
Defined.

Lemma epoch_length_witness : __len__ (self Fixtures.queue_4_2) = Ok 8%Z.
Proof.
  exact (proj1 (@epoch_length Fixtures.seq_loader Fixtures.queue_4_2 2 eq_refl)).
Defined.

Lemma path_read_on_every_pop_witness :
  exists e,
    __getitem__ Fixtures.seq_loader PNone Fixtures.queue_pathless =
    (Raise e, Fixtures.queue_pathless).
Proof.
  apply (proj1
    (@path_read_on_every_pop Fixtures.seq_loader PNone Fixtures.queue_pathless
       Fixtures.queue_pathless eq_refl)).
  intro H. inversion H as [|p l (d & s & E & A) _]; subst.
  inversion E; subst. discriminate A.
Defined.

(** Against C4 as stated: over a dataset of zero items, a call of
    [__getitem__] on the empty buffer fetches nothing and fails with
    [IndexError]; no [StopIteration] reaches its caller. *)
Lemma empty_source_counterexample :
  subjects_dataset (self Fixtures.queue_empty) = [] /\
  patches_list (self Fixtures.queue_empty) = [] /\
  fst (__getitem__ Fixtures.seq_loader PNone Fixtures.queue_empty) =
    Raise IndexError /\
  fst (__getitem__ Fixtures.seq_loader PNone Fixtures.queue_empty) <>
    Raise StopIteration /\
  passes (world (snd (__getitem__ Fixtures.seq_loader PNone
                        Fixtures.queue_empty))) =
    passes (world Fixtures.queue_empty).
Proof. repeat split. discriminate. Qed.

(** Against C6 as stated: the second subject has an image of three axes;
    the refill raises [AssertionError] at it, and by then the buffer, empty
    before, holds the two patches of the first subject. *)
Lemma shape_rejection_counterexample :
  patches_list (self Fixtures.queue_flat_second) = [] /\
  fst (fill Fixtures.seq_loader Fixtures.queue_flat_second) =
    Raise AssertionError /\
  patches_list (self (snd (fill Fixtures.seq_loader
                             Fixtures.queue_flat_second))) =
    [Fixtures.patch_named "a_patch"; Fixtures.patch_named "a_patch"] /\
  patches_list (self (snd (fill Fixtures.seq_loader
                             Fixtures.queue_flat_second))) <>
    patches_list (self Fixtures.queue_flat_second).
Proof. repeat split. discriminate. Qed.

(** Against C7 as stated: a construction that passes [None] for the capacity
    and for the samples per volume completes, and one that leaves them out
    fails with [TypeError], not with a failed assertion. *)
Lemma construction_checks_counterexample :
  (exists s,
     call_Queue Fixtures.seq_loader (Some Fixtures.four_subjects) (Some None)
       (Some None) (Some (PInt 2)) (Some (Some Fixtures.endless_sampler))
       None None None Fixtures.world0 = Ok s) /\
  call_Queue Fixtures.seq_loader (Some Fixtures.four_subjects) None None
    (Some (PInt 2)) (Some (Some Fixtures.endless_sampler)) None None None
    Fixtures.world0 = Raise TypeError /\
  call_Queue Fixtures.seq_loader (Some Fixtures.four_subjects) None None
    (Some (PInt 2)) (Some (Some Fixtures.endless_sampler)) None None None
    Fixtures.world0 <> Raise AssertionError.
Proof.
  split; [eexists; reflexivity|]. split; [reflexivity|discriminate].
Qed.

(** Against C8 as stated: the construction with capacity 10 and three
    samples per volume leaves no warning behind; the first refill does. *)
Lemma indivisible_capacity_counterexample :
  fst (__init__ Fixtures.seq_loader Fixtures.four_subjects (Some 10%Z)
         (Some 3%Z) (PInt 2) (Some Fixtures.endless_sampler) 0 false false
         Fixtures.world0) = Ok tt /\
  trace (world (snd (__init__ Fixtures.seq_loader Fixtures.four_subjects
                       (Some 10%Z) (Some 3%Z) (PInt 2)
                       (Some Fixtures.endless_sampler) 0 false false
                       Fixtures.world0))) = [] /\
  trace (world (snd (fill Fixtures.seq_loader Fixtures.queue_10_3))) =
    [divisibility_warning 10 3].
Proof. repeat split. Qed.

(** Against C10 as stated: with [verbose] off, a call of [__getitem__] on a
    buffer whose patch has no ['path'] fails with [KeyError], where the same
    call on a patch that has one returns it. *)
Lemma path_read_on_every_pop_counterexample :
  verbose (self Fixtures.queue_pathless) = false /\
  patches_list (self Fixtures.queue_pathless) <> [] /\
  fst (__getitem__ Fixtures.seq_loader PNone Fixtures.queue_pathless) =
    Raise KeyError /\
  fst (__getitem__ Fixtures.seq_loader PNone Fixtures.queue_pathful) =
    Ok (Fixtures.patch_named "a_patch").
Proof. repeat split. discriminate. Qed.

(** ** Further properties: strings and batches *)

Lemma split_on_cons (sep : ascii) (s : string) :
  exists w ws, Py.split_on sep s = w :: ws.
Proof.
  destruct (Py.split_on sep s) as [|w ws] eqn:E.
  - exfalso. exact (split_on_nonempty sep s E).
  - exists w, ws. reflexivity.
Qed.

Lemma concat_cons_cons (sep x y : string) (l : list string) :
  String.concat sep (x :: y :: l) =
  String.append x (String.append sep (String.concat sep (y :: l))).
Proof. reflexivity. Qed.

(** Splitting a string at a separator and joining the pieces with the
    separator gives the string back, and no piece contains the separator. *)
Lemma split_on_join (sep : ascii) (s : string) :
  String.concat (String sep EmptyString) (Py.split_on sep s) = s /\
  Forall (fun w => occurs sep w = false) (Py.split_on sep s).
Proof.
  induction s as [|c s [IHj IHf]]; simpl.
  - split; [reflexivity|]. repeat constructor.
  - destruct (Ascii.eqb c sep) eqn:E.
    + apply Ascii.eqb_eq in E. subst c.
      destruct (split_on_cons sep s) as (w & ws & Hs).
      rewrite Hs in *. split.
      * rewrite concat_cons_cons, IHj. reflexivity.
      * constructor; [reflexivity|exact IHf].
    + destruct (split_on_cons sep s) as (w & ws & Hs).
      rewrite Hs in *. split.
      * destruct ws as [|y ws].
        -- simpl in *. now rewrite IHj.
        -- rewrite concat_cons_cons in *. rewrite <- IHj. reflexivity.
      * inversion IHf as [|? ? Hw Hws]; subst.
        constructor; [simpl; now rewrite E, Hw | exact Hws].
Qed.

Lemma string_append_assoc (a b c : string) :
  String.append (String.append a b) c = String.append a (String.append b c).
Proof. induction a as [|x a IH]; simpl; [reflexivity|]. now rewrite IH. Qed.

Lemma concat_snoc (sep w : string) (l : list string) :
  l <> [] ->
  String.concat sep (l ++ [w]) =
  String.append (String.concat sep l) (String.append sep w).
Proof.
  induction l as [|x l IH]; intro H; [contradiction|].
  destruct l as [|y l].
  - reflexivity.
  - change ((x :: y :: l) ++ [w]) with (x :: y :: l ++ [w]).
    rewrite concat_cons_cons.
    change (y :: l ++ [w]) with ((y :: l) ++ [w]).
    rewrite IH by discriminate. rewrite concat_cons_cons.
    now rewrite !string_append_assoc.
Qed.

(** X1.  The suffix that line 41 takes from the path of a patch is what
    follows the last underscore of the path: it contains no underscore, and
    the path is either the suffix itself or a prefix, an underscore and the
    suffix. *)
Theorem path_suffix_is_last_segment (d : list (string * pyval)) (s : string) :
  Py.assoc "path" d = Some (PStr s) ->
  exists w,
    path_suffixes [PDict d] = Ok [PStr w] /\
    occurs "_" w = false /\
    (s = w \/
     exists pre, s = String.append pre (String.append "_" w)).
Proof.
  intro H. unfold path_suffixes. simpl. rewrite H. simpl.
  destruct (split_on_join "_" s) as (J & F).
  destruct (rev (Py.split_on "_" s)) as [|w r] eqn:R.
  - exfalso. apply (split_on_nonempty "_" s).
    rewrite <- (rev_involutive (Py.split_on "_" s)), R. reflexivity.
  - assert (L : Py.split_on "_" s = rev r ++ [w]).
    { rewrite <- (rev_involutive (Py.split_on "_" s)), R. reflexivity. }
    exists w. simpl. split; [reflexivity|]. rewrite L in J, F.
    split.
    + apply Forall_app in F. destruct F as (_ & F).
      inversion F; assumption.
    + destruct (rev r) as [|x l] eqn:E.
      * left. simpl in J. now symmetry.
      * right. rewrite concat_snoc in J by discriminate.
        exists (String.concat "_" (x :: l)). now symmetry.
Qed.

Lemma dict_set_mid (pre rest : list (string * pyval)) (k : string)
  (v v' : pyval) :
  ~ In k (map fst pre) ->
  Py.dict_set (pre ++ (k, v) :: rest) k v' = pre ++ (k, v') :: rest.
Proof.
  induction pre as [|[k0 w] pre IH]; simpl; intro H.
  - now rewrite String.eqb_refl.
  - destruct (String.eqb k0 k) eqn:E.
    + apply String.eqb_eq in E. exfalso. apply H. now left.
    + rewrite IH; [reflexivity|]. intro I. apply H. now right.
Qed.

Lemma squeeze_items_stripped (idx : nat) (rest pre : list (string * pyval)) :
  NoDup (map fst (pre ++ rest)) ->
  squeeze_items rest idx (pre ++ rest) =
  rbind (stripped idx rest) (fun r => Ok (pre ++ r)).
Proof.
  unfold stripped. revert pre.
  induction rest as [|[k v] rest IH]; intros pre N.
  - simpl. now rewrite app_nil_r.
  - simpl. destruct (Py.getitem_idx v idx) as [v'|e]; simpl; [|reflexivity].
    rewrite dict_set_mid.
    2:{ rewrite map_app in N. simpl in N. apply NoDup_remove_2 in N.
        intro I. apply N. apply in_or_app. now left. }
    change (pre ++ (k, v') :: rest) with (pre ++ [(k, v')] ++ rest).
    rewrite app_assoc. rewrite IH.
    + destruct (for_each _ rest) as [r|e]; simpl; [|reflexivity].
      now rewrite <- app_assoc.
    + rewrite <- app_assoc. simpl.
      rewrite map_app in *. simpl in *. exact N.
Qed.

Lemma stripped_shape (idx : nat) (items b : list (string * pyval)) :
  stripped idx items = Ok b ->
  map fst b = map fst items /\
  Forall2 (fun kv kv' => Py.getitem_idx (snd kv) idx = Ok (snd kv')) items b.
Proof.
  unfold stripped. revert b. induction items as [|[k v] items IH]; intros b H.
  - inversion H. split; [reflexivity|constructor].
  - simpl in H. destruct (Py.getitem_idx v idx) as [v'|e] eqn:G; simpl in H;
      [|discriminate].
    destruct (for_each _ items) as [r|e]; simpl in H; [|discriminate].
    inversion H; subst b. destruct (IH r eq_refl) as (K & F).
    split; [simpl; now rewrite K|]. constructor; [exact G|exact F].
Qed.

(** X2.  On a dict (keys distinct, as in any Python dict) the in-place loop
    of [squeeze_batch] is the plain replacement of every value by its
    element [idx]: the result has the same keys in the same order, each with
    the element [idx] of the value it had, and the call fails as soon as one
    value has no such element. *)
Theorem squeeze_batch_strips (idx : nat) (items : list (string * pyval)) :
  NoDup (map fst items) ->
  squeeze_batch (PDict items) idx =
    rbind (stripped idx items) (fun b => Ok (PDict b)) /\
  forall b,
    squeeze_batch (PDict items) idx = Ok (PDict b) ->
    map fst b = map fst items /\
    Forall2 (fun kv kv' => Py.getitem_idx (snd kv) idx = Ok (snd kv'))
      items b.
Proof.
  intro N.
  assert (E : squeeze_batch (PDict items) idx =
              rbind (stripped idx items) (fun b => Ok (PDict b))).
  { unfold squeeze_batch.
    pose proof (squeeze_items_stripped idx items [] N) as Q.
    simpl in Q. rewrite Q.
    destruct (stripped idx items); reflexivity. }
  split; [exact E|].
  intros b H. rewrite E in H.
  destruct (stripped idx items) as [b'|e] eqn:S; simpl in H; [|discriminate].
  inversion H; subst b'. now apply stripped_shape.
Qed.

Lemma squeeze_items_ok (idx : nat) (rest batch : list (string * pyval)) :
  (exists b, squeeze_items rest idx batch = Ok b) <->
  Forall (fun kv => indexable idx (snd kv)) rest.
Proof.
  revert batch. induction rest as [|[k v] rest IH]; intro batch; simpl.
  - split; [constructor | eexists; reflexivity].
  - split.
    + intros [b H].
      destruct (Py.getitem_idx v idx) as [v'|e] eqn:G; simpl in H;
        [|discriminate].
      constructor; [exists v'; exact G|].
      apply (IH (Py.dict_set batch k v')). exists b. exact H.
    + intro F. inversion F as [|? ? [v' G] F']; subst. simpl in G.
      rewrite G. simpl. apply IH. exact F'.
Qed.

(** X3.  [squeeze_batch] succeeds exactly on a dict all of whose values have
    an element [idx]; anything that is not a dict is refused with
    [AttributeError]. *)
Theorem squeeze_batch_succeeds_iff (batch : pyval) (idx : nat) :
  ((exists sample, squeeze_batch batch idx = Ok sample) <->
   exists items,
     batch = PDict items /\ Forall (fun kv => indexable idx (snd kv)) items) /\
  ((forall items, batch <> PDict items) ->
   squeeze_batch batch idx = Raise AttributeError).
Proof.
  split; [split|].
  - intros [sample H]. destruct batch as [| | | | |items]; try discriminate.
    exists items. split; [reflexivity|].
    apply (squeeze_items_ok idx items items).
    simpl in H. destruct (squeeze_items items idx items) as [b|e];
      [now exists b | discriminate].
  - intros (items & -> & F).
    apply (squeeze_items_ok idx items items) in F. destruct F as [b Hb].
    exists (PDict b). simpl. now rewrite Hb.
  - intro H. destruct batch; try reflexivity. exfalso. eapply H. reflexivity.
Qed.

(** X4.  A sample that [get_next_subject_sample] returns is one whose
    ['image'] is a tensor of exactly four axes. *)
Theorem fetched_sample_has_four_axes
  (DataLoader : nat -> list pyval -> bool -> Z -> list pyval)
  (s s' : State) (sample : pyval) :
  get_next_subject_sample DataLoader s = (Ok sample, s') ->
  exists shape,
    Py.getitem_key sample "image" = Ok (PTensor shape) /\
    List.length shape = 4%nat.
Proof.
  intro H. apply gnss_ok in H. destruct H as (b & _ & C & _).
  unfold check_subject_batch in C.
  destruct (squeeze_batch b 0) as [smp|e]; simpl in C; [|discriminate].
  destruct (Py.getitem_key smp "image") as [image|e] eqn:G; simpl in C;
    [|discriminate].
  destruct image as [| | |shape| |]; simpl in C; try discriminate.
  destruct (Nat.eqb (List.length shape) 4) eqn:E; [|discriminate].
  inversion C; subst smp. exists shape.
  split; [exact G|]. now apply Nat.eqb_eq.
Qed.

(** ** Further properties: runs of calls *)

Section MoreRuns.

Variable DataLoader : nat -> list pyval -> bool -> Z -> list pyval.

(** A call on a buffer that is not empty and whose patches all carry a
    path. *)
Lemma getitem_buffered (i : pyval) (s : State) (rest : list pyval)
  (patch : pyval) :
  patches_list (self s) = rest ++ [patch] ->
  Forall has_path (rest ++ [patch]) ->
  exists suffixes,
    __getitem__ DataLoader i s =
    (Ok patch,
     set_num_sampled_patches (num_sampled_patches (self s) + 1)
       (set_patches_list rest (printed [PStr "Patches:"; PList suffixes] s))).
Proof.
  intros P F. rewrite getitem_run.
  rewrite fill_if_empty_nonempty
    by (rewrite P; destruct rest; discriminate).
  rewrite <- P in F. apply path_suffixes_ok in F. destruct F as [sfx E].
  rewrite E. cbv zeta. rewrite P, pop_snoc. exists sfx. reflexivity.
Qed.

Lemma getitem_ok_count (i : pyval) (s s' : State) (patch : pyval) :
  __getitem__ DataLoader i s = (Ok patch, s') ->
  num_sampled_patches (self s') = (num_sampled_patches (self s) + 1)%Z.
Proof.
  intro H. rewrite getitem_run in H.
  pose proof (fill_if_empty_frame DataLoader s) as (_ & N).
  destruct (fill_if_empty DataLoader s) as [[u|e] s1]; [|discriminate].
  simpl in N.
  destruct (path_suffixes (patches_list (self s1))) as [sfx|e]; [|discriminate].
  cbv zeta in H.
  destruct (Py.pop (patches_list (self s1))) as [[rest p]|]; [|discriminate].
  inversion H; subst. st_simpl. now rewrite N.
Qed.

Lemma fill_extends (s : State) :
  exists extra,
    patches_list (self (snd (fill DataLoader s))) =
    patches_list (self s) ++ extra.
Proof.
  unfold fill, bind.
  pose proof (fill_header_frame s) as (Hs & _).
  destruct (fill_header s) as [[n|e] s0]; simpl in Hs.
  - pose proof (fill_loop_frame DataLoader (Z.to_nat n) s0)
      as (_ & _ & _ & X & _).
    now rewrite Hs in X.
  - simpl. rewrite Hs. exists []. now rewrite app_nil_r.
Qed.

End MoreRuns.

(** X5.  The buffer is a stack: while it holds patches, calls of
    [__getitem__] return them last appended first, and fetch nothing, build
    no sampler and start no pass.  All patches of the buffer carry a path, as
    line 41 requires. *)
Theorem pops_are_lifo
  (DataLoader : nat -> list pyval -> bool -> Z -> list pyval)
  (taken kept : list pyval) (s : State) :
  patches_list (self s) = kept ++ taken ->
  Forall has_path (kept ++ taken) ->
  exists s',
    pops DataLoader (List.length taken) s = (Ok (rev taken), s') /\
    patches_list (self s') = kept /\
    subjects_iterable (self s') = subjects_iterable (self s) /\
    passes (world s') = passes (world s) /\
    delivered (world s') = delivered (world s) /\
    samplers (world s') = samplers (world s).
Proof.
  revert s. induction taken as [|x t IH] using rev_ind; intros s P F.
  - exists s. rewrite app_nil_r in P. simpl. repeat split. exact P.
  - rewrite app_assoc in P, F.
    destruct (@getitem_buffered DataLoader PNone s _ _ P F) as [sfx G].
    set (s1 := set_num_sampled_patches _ _) in G.
    assert (P1 : patches_list (self s1) = kept ++ t) by reflexivity.
    assert (F1 : Forall has_path (kept ++ t)).
    { apply Forall_app in F. apply F. }
    destruct (IH s1 P1 F1) as (s' & L & A & B & C & D & E).
    exists s'. rewrite length_app, Nat.add_1_r, rev_app_distr. simpl.
    unfold bind at 1. rewrite G. unfold bind at 1. rewrite L.
    split; [reflexivity|]. split; [exact A|].
    unfold s1 in B, C, D, E. st_simpl.
    rewrite printed_self in B.
    rewrite printed_passes in C. rewrite printed_delivered in D.
    rewrite printed_samplers in E. repeat split; assumption.
Qed.

(** X6.  A run of [n] calls of [__getitem__] that completes returns [n]
    patches and adds [n] to the sampled count. *)
Theorem pops_count
  (DataLoader : nat -> list pyval -> bool -> Z -> list pyval)
  (n : nat) (s s' : State) (patches : list pyval) :
  pops DataLoader n s = (Ok patches, s') ->
  List.length patches = n /\
  num_sampled_patches (self s') =
    (num_sampled_patches (self s) + Z.of_nat n)%Z.
Proof.
  revert s patches. induction n as [|n IH]; intros s patches H.
  - simpl in H. inversion H; subst. split; [reflexivity|]. simpl. lia.
  - simpl in H. unfold bind at 1 in H.
    destruct (__getitem__ DataLoader PNone s) as [[p|e] s1] eqn:G;
      [|discriminate].
    unfold bind at 1 in H.
    destruct (pops DataLoader n s1) as [[ps|e] s2] eqn:L; [|discriminate].
    inversion H; subst. destruct (IH _ _ L) as (A & B).
    apply getitem_ok_count in G.
    split; [simpl; now rewrite A|]. rewrite B, G. lia.
Qed.

(** X7.  A call of [__getitem__] that raises counts nothing and loses no
    patch: the sampled count is as before and the buffer is the one before
    the call, followed by whatever a refill appended before the failure. *)
Theorem failed_pop_keeps_patches
  (DataLoader : nat -> list pyval -> bool -> Z -> list pyval)
  (i : pyval) (s s' : State) (e : exn) :
  __getitem__ DataLoader i s = (Raise e, s') ->
  num_sampled_patches (self s') = num_sampled_patches (self s) /\
  exists extra, patches_list (self s') = patches_list (self s) ++ extra.
Proof.
  intro H. rewrite getitem_run in H.
  pose proof (fill_if_empty_frame DataLoader s) as (_ & N).
  assert (X : exists extra,
             patches_list (self (snd (fill_if_empty DataLoader s))) =
             patches_list (self s) ++ extra).
  { destruct (patches_list (self s)) as [|p l] eqn:E.
    - rewrite (fill_if_empty_empty DataLoader s E).
      destruct (fill_extends DataLoader
                  (printed [PStr "Patches list is empty."] s)) as [x Hx].
      rewrite printed_self, E in Hx. exists x. exact Hx.
    - rewrite fill_if_empty_nonempty by (rewrite E; discriminate).
      exists []. simpl. rewrite E. now rewrite app_nil_r. }
  destruct (fill_if_empty DataLoader s) as [[u|e1] s1]; simpl in N, X.
  - destruct (path_suffixes (patches_list (self s1))) as [sfx|e2].
    + cbv zeta in H.
      destruct (Py.pop (patches_list (self s1))) as [[rest p]|];
        [discriminate|].
      inversion H; subst. rewrite printed_self. split; assumption.
    + inversion H; subst. split; assumption.
  - inversion H; subst. split; assumption.
Qed.

(** X8.  With the sampler class, the patch size and both sizes set, and a
    samples per volume that is not zero, a refill adds exactly one warning
    when the capacity is not a multiple of the samples per volume and none
    when it is, whether the refill completes or fails on the way. *)
Theorem refill_warns_once
  (DataLoader : nat -> list pyval -> bool -> Z -> list pyval)
  (s : State) (cls : Sampler) (c k : Z) :
  sampler_class (self s) = Some cls ->
  patch_size (self s) <> PNone ->
  max_length (self s) = Some c ->
  samples_per_volume (self s) = Some k ->
  k <> 0%Z ->
  warnings_of (trace (world (snd (fill DataLoader s)))) =
  warnings_of (trace (world s)) ++
  (if Z.eqb (c mod k) 0 then [] else [divisibility_warning c k]).
Proof.
  intros Hc Hp Hm Hk Hk0.
  assert (Hp' : is_none (patch_size (self s)) = false).
  { destruct (patch_size (self s)); try reflexivity. contradiction. }
  unfold fill, bind. rewrite (fill_header_run s Hc Hp' Hm Hk Hk0).
  pose proof (fill_loop_frame DataLoader
                (Z.to_nat (Z.min (num_subjects (self s)) (c / k)))
                (after_header c k s)) as (_ & _ & W & _).
  rewrite W. apply after_header_warnings.
Qed.

(** X9.  With zero samples per volume, a call of [__getitem__] on an empty
    buffer fails with the [ZeroDivisionError] of line 78; nothing has been
    fetched, appended or counted. *)
Theorem zero_samples_per_volume
  (DataLoader : nat -> list pyval -> bool -> Z -> list pyval)
  (i : pyval) (s : State) (cls : Sampler) (c : Z) :
  sampler_class (self s) = Some cls ->
  patch_size (self s) <> PNone ->
  max_length (self s) = Some c ->
  samples_per_volume (self s) = Some 0%Z ->
  patches_list (self s) = [] ->
  __getitem__ DataLoader i s =
  (Raise ZeroDivisionError, printed [PStr "Patches list is empty."] s).
Proof.
  intros Hc Hp Hm Hk He.
  assert (Hp' : is_none (patch_size (self s)) = false).
  { destruct (patch_size (self s)); try reflexivity. contradiction. }
  rewrite getitem_run, (fill_if_empty_empty DataLoader s He).
  unfold fill, bind.
  rewrite (@fill_header_zero _ cls c); rewrite ?printed_self; try assumption.
  reflexivity.
Qed.

(** ** Further properties: the cursor and the output *)

Lemma balanced_same (s s' : State) :
  subjects_dataset (self s') = subjects_dataset (self s) ->
  subjects_iterable (self s') = subjects_iterable (self s) ->
  passes (world s') = passes (world s) ->
  delivered (world s') = delivered (world s) ->
  balanced s -> balanced s'.
Proof. unfold balanced. intros -> -> -> ->. trivial. Qed.

Lemma balanced_printed (args : list pyval) (s : State) :
  balanced s -> balanced (printed args s).
Proof.
  apply balanced_same;
    now rewrite ?printed_self, ?printed_passes, ?printed_delivered.
Qed.

Section Balance.

Variable DataLoader : nat -> list pyval -> bool -> Z -> list pyval.

Hypothesis DataLoader_length :
  forall i ds sh nw, List.length (DataLoader i ds sh nw) = List.length ds.

Lemma balanced_restarted (s : State) :
  subjects_iterable (self s) = [] ->
  balanced s -> balanced (restarted DataLoader s).
Proof.
  unfold balanced, restarted. intros E B. st_simpl.
  rewrite !printed_self, !printed_passes, !printed_delivered.
  unfold next_pass. rewrite DataLoader_length.
  rewrite E in B. simpl in B. lia.
Qed.

Lemma balanced_gnss (s : State) :
  balanced s -> balanced (snd (get_next_subject_sample DataLoader s)).
Proof.
  intro B. destruct (subjects_iterable (self s)) as [|b rest] eqn:E.
  - pose proof (@balanced_restarted s E B) as R.
    destruct (next_pass DataLoader s) as [|b rest] eqn:N.
    + rewrite (gnss_restart_nil DataLoader s E N). exact R.
    + rewrite (gnss_restart_cons DataLoader s E N).
      unfold balanced in *. st_simpl.
      rewrite restarted_iterable, N in R. cbn [List.length] in R. lia.
  - rewrite (gnss_cons DataLoader s E).
    unfold balanced in *. st_simpl. rewrite E in B. simpl in B. lia.
Qed.

Lemma balanced_extend (s : State) (sample : pyval) :
  balanced s -> balanced (snd (extend_from sample s)).
Proof.
  intro B. unfold extend_from, bind, gets.
  destruct (sampler_class (self s)) as [cls|]; [|exact B].
  unfold modify. st_simpl.
  destruct (samples_per_volume (self s)) as [k|]; [|exact B].
  unfold lift. destruct (Py.islice _ k) as [l|e]; exact B.
Qed.

Lemma balanced_fill_loop (n : nat) (s : State) :
  balanced s -> balanced (snd (fill_loop DataLoader n s)).
Proof.
  revert s. induction n as [|n IH]; intros s B; simpl; [exact B|].
  unfold bind at 1. pose proof (@balanced_gnss s B) as B1.
  destruct (get_next_subject_sample DataLoader s) as [[sample|e] s1];
    [|exact B1].
  unfold bind at 1. pose proof (@balanced_extend s1 sample B1) as B2.
  destruct (extend_from sample s1) as [[[]|e] s2]; [|exact B2].
  apply IH. exact B2.
Qed.

Lemma balanced_fill (s : State) :
  balanced s -> balanced (snd (fill DataLoader s)).
Proof.
  intro B. unfold fill, bind.
  pose proof (fill_header_frame s) as (Hs & Hp & Hd & _).
  destruct (fill_header s) as [[n|e] s0]; simpl in Hs, Hp, Hd.
  - apply balanced_fill_loop.
    revert B. apply balanced_same; congruence.
  - simpl. revert B. apply balanced_same; congruence.
Qed.

Lemma balanced_getitem (i : pyval) (s : State) :
  balanced s -> balanced (snd (__getitem__ DataLoader i s)).
Proof.
  intro B. rewrite getitem_run.
  assert (B1 : balanced (snd (fill_if_empty DataLoader s))).
  { destruct (patches_list (self s)) as [|p l] eqn:E.
    - rewrite (fill_if_empty_empty DataLoader s E).
      apply balanced_fill. now apply balanced_printed.
    - rewrite fill_if_empty_nonempty by (rewrite E; discriminate). exact B. }
  destruct (fill_if_empty DataLoader s) as [[u|e] s1]; simpl in B1;
    [|exact B1].
  destruct (path_suffixes _) as [sfx|e]; [|exact B1].
  cbv zeta. destruct (Py.pop _) as [[rest patch]|]; st_simpl.
  - revert B1. apply balanced_same; st_simpl;
      now rewrite ?printed_self, ?printed_passes, ?printed_delivered.
  - now apply balanced_printed.
Qed.

Lemma balanced_pops (n : nat) (s : State) :
  balanced s -> balanced (snd (pops DataLoader n s)).
Proof.
  revert s. induction n as [|n IH]; intros s B; simpl; [exact B|].
  unfold bind at 1. pose proof (@balanced_getitem PNone s B) as B1.
  destruct (__getitem__ DataLoader PNone s) as [[p|e] s1]; [|exact B1].
  unfold bind. specialize (IH s1 B1).
  destruct (pops DataLoader n s1) as [[ps|e] s2]; exact IH.
Qed.

End Balance.

(** X10.  With a loader that yields one batch per item in every pass, the
    cursor accounts for every batch: the batches handed out and those the
    current pass has yet to yield always add up to the number of passes
    started times the size of the dataset, and the cursor never holds more
    batches than the dataset has items.  The constructor establishes this and
    every run of calls of [__getitem__] keeps it, whatever the calls return:
    a pass is only started when the one before has been handed out in
    full. *)
Theorem cursor_accounts_for_every_batch
  (DataLoader : nat -> list pyval -> bool -> Z -> list pyval) :
  (forall i ds sh nw, List.length (DataLoader i ds sh nw) = List.length ds) ->
  (forall ds c k ps cls nw sh vb w,
     delivered w = (passes w * List.length ds)%nat ->
     balanced (snd (__init__ DataLoader ds c k ps cls nw sh vb w))) /\
  (forall s n, balanced s -> balanced (snd (pops DataLoader n s))).
Proof.
  intro HL. split.
  - intros ds c k ps cls nw sh vb w B. rewrite init_run. cbv zeta.
    unfold balanced. st_simpl.
    rewrite !printed_self, printed_passes, printed_delivered. st_simpl.
    unfold next_pass. st_simpl. rewrite HL. lia.
  - intros s n B. now apply balanced_pops.
Qed.

Lemma only_warned_refl (s : State) :
  verbose (self s) = false -> only_warned s s.
Proof.
  intro H. split; [exact H|]. exists []. split; [now rewrite app_nil_r|].
  constructor.
Qed.

Lemma only_warned_trans (s1 s2 s3 : State) :
  only_warned s1 s2 -> only_warned s2 s3 -> only_warned s1 s3.
Proof.
  intros (_ & w1 & T1 & F1) (V & w2 & T2 & F2). split; [exact V|].
  exists (w1 ++ w2). split; [rewrite T2, T1; now rewrite app_assoc|].
  apply Forall_app. split; assumption.
Qed.

Lemma only_warned_same (s s' : State) :
  verbose (self s') = false ->
  trace (world s') = trace (world s) ->
  only_warned s s'.
Proof.
  intros V T. split; [exact V|]. exists [].
  split; [now rewrite T, app_nil_r | constructor].
Qed.

Section Quiet.

Variable DataLoader : nat -> list pyval -> bool -> Z -> list pyval.

Lemma restarted_quiet (s : State) :
  verbose (self s) = false ->
  restarted DataLoader s =
  set_subjects_iterable (next_pass DataLoader s) (tick_passes s).
Proof.
  intro H. unfold restarted. cbv zeta.
  now rewrite (@printed_quiet _ s H), (@printed_quiet _ s H).
Qed.

Lemma gnss_quiet (s : State) :
  verbose (self s) = false ->
  only_warned s (snd (get_next_subject_sample DataLoader s)).
Proof.
  intro H. destruct (subjects_iterable (self s)) as [|b rest] eqn:E.
  - destruct (next_pass DataLoader s) as [|b rest] eqn:N.
    + rewrite (gnss_restart_nil DataLoader s E N), (restarted_quiet s H).
      now apply only_warned_same.
    + rewrite (gnss_restart_cons DataLoader s E N), (restarted_quiet s H).
      now apply only_warned_same.
  - rewrite (gnss_cons DataLoader s E). now apply only_warned_same.
Qed.

Lemma extend_quiet (s : State) (sample : pyval) :
  verbose (self s) = false ->
  only_warned s (snd (extend_from sample s)).
Proof.
  intro H. unfold extend_from, bind, gets.
  destruct (sampler_class (self s)) as [cls|];
    [|now apply only_warned_same].
  unfold modify. st_simpl.
  destruct (samples_per_volume (self s)) as [k|];
    [|now apply only_warned_same].
  unfold lift. destruct (Py.islice _ k) as [l|e];
    now apply only_warned_same.
Qed.

Lemma fill_loop_quiet (n : nat) (s : State) :
  verbose (self s) = false ->
  only_warned s (snd (fill_loop DataLoader n s)).
Proof.
  revert s. induction n as [|n IH]; intros s H; simpl.
  - now apply only_warned_refl.
  - unfold bind at 1. pose proof (gnss_quiet s H) as Q1.
    destruct (get_next_subject_sample DataLoader s) as [[sample|e] s1];
      [|exact Q1].
    simpl in Q1. unfold bind at 1.
    pose proof (extend_quiet s1 sample (proj1 Q1)) as Q2.
    destruct (extend_from sample s1) as [[[]|e] s2]; simpl in Q2.
    + eapply only_warned_trans; [exact Q1|].
      eapply only_warned_trans; [exact Q2|]. apply IH. apply Q2.
    + simpl. eapply only_warned_trans; eassumption.
Qed.

Lemma fill_header_quiet (s : State) :
  verbose (self s) = false -> only_warned s (snd (fill_header s)).
Proof.
  intro H.
  destruct (sampler_class (self s)) as [cls|] eqn:Hc.
  2:{ rewrite fill_header_unset by now left. now apply only_warned_refl. }
  destruct (is_none (patch_size (self s))) eqn:Hp.
  { rewrite fill_header_unset; [now apply only_warned_refl|].
    right. destruct (patch_size (self s)); (discriminate || reflexivity). }
  destruct (max_length (self s)) as [c|] eqn:Hm.
  2:{ rewrite (fill_header_missing s Hc Hp) by now left.
      now apply only_warned_refl. }
  destruct (samples_per_volume (self s)) as [k|] eqn:Hk.
  2:{ rewrite (fill_header_missing s Hc Hp) by now right.
      now apply only_warned_refl. }
  destruct (Z.eq_dec k 0) as [->|Hk0].
  - rewrite (fill_header_zero s Hc Hp Hm Hk). now apply only_warned_refl.
  - rewrite (fill_header_run s Hc Hp Hm Hk Hk0). st_simpl.
    unfold after_header.
    destruct (negb (Z.eqb (c mod k) 0)).
    + rewrite printed_quiet by exact H.
      split; [exact H|]. exists [divisibility_warning c k].
      split; [reflexivity|]. repeat constructor.
    + rewrite printed_quiet by exact H. now apply only_warned_refl.
Qed.

Lemma fill_quiet (s : State) :
  verbose (self s) = false -> only_warned s (snd (fill DataLoader s)).
Proof.
  intro H. unfold fill, bind. pose proof (fill_header_quiet s H) as Q.
  destruct (fill_header s) as [[n|e] s0]; simpl in Q; [|exact Q].
  eapply only_warned_trans; [exact Q|]. apply fill_loop_quiet. apply Q.
Qed.

Lemma getitem_quiet (i : pyval) (s : State) :
  verbose (self s) = false ->
  only_warned s (snd (__getitem__ DataLoader i s)).
Proof.
  intro H. rewrite getitem_run.
  assert (Q : only_warned s (snd (fill_if_empty DataLoader s))).
  { destruct (patches_list (self s)) as [|p l] eqn:E.
    - rewrite (fill_if_empty_empty DataLoader s E).
      rewrite printed_quiet by exact H. now apply fill_quiet.
    - rewrite fill_if_empty_nonempty by (rewrite E; discriminate).
      now apply only_warned_refl. }
  destruct (fill_if_empty DataLoader s) as [[u|e] s1]; simpl in Q; [|exact Q].
  destruct (path_suffixes _) as [sfx|e]; [|exact Q].
  cbv zeta. rewrite (@printed_quiet _ s1 (proj1 Q)).
  destruct (Py.pop _) as [[rest patch]|]; [|exact Q].
  eapply only_warned_trans; [exact Q|].
  apply only_warned_same; [apply Q|reflexivity].
Qed.

Lemma pops_quiet (n : nat) (s : State) :
  verbose (self s) = false ->
  only_warned s (snd (pops DataLoader n s)).
Proof.
  revert s. induction n as [|n IH]; intros s H; simpl.
  - now apply only_warned_refl.
  - unfold bind at 1. pose proof (getitem_quiet PNone s H) as Q.
    destruct (__getitem__ DataLoader PNone s) as [[p|e] s1]; [|exact Q].
    simpl in Q. unfold bind. specialize (IH s1 (proj1 Q)).
    destruct (pops DataLoader n s1) as [[ps|e] s2]; simpl in IH |- *;
      eapply only_warned_trans; eassumption.
Qed.

End Quiet.

Lemma stdout_of_warnings (t ws : list event) :
  Forall (fun e => is_warning e = true) ws ->
  stdout_of (t ++ ws) = stdout_of t.
Proof.
  intro F. unfold stdout_of. rewrite filter_app.
  replace (filter (fun e => negb (is_warning e)) ws) with (@nil event).
  - apply app_nil_r.
  - induction F as [|e ws He _ IH]; simpl; [reflexivity|].
    now rewrite He.
Qed.

(** X11.  With [verbose] off the queue prints nothing: whatever a run of
    calls of [__getitem__] returns, standard output is as it was before the
    run, and all that the run adds to the trace, which records standard
    output and the warnings, are warnings.  (The progress bar of [fill] is
    drawn on standard error whatever [verbose] is; the trace does not record
    standard error.) *)
Theorem quiet_when_not_verbose
  (DataLoader : nat -> list pyval -> bool -> Z -> list pyval)
  (n : nat) (s : State) :
  verbose (self s) = false ->
  stdout_of (trace (world (snd (pops DataLoader n s)))) =
    stdout_of (trace (world s)) /\
  exists ws,
    trace (world (snd (pops DataLoader n s))) = trace (world s) ++ ws /\
    Forall (fun e => is_warning e = true) ws.
Proof.
  intro H. destruct (pops_quiet DataLoader n s H) as (_ & ws & T & F).
  split.
  - rewrite T. now apply stdout_of_warnings.
  - exists ws. split; assumption.
Qed.

(** ** Further properties: odd sizes and the summary *)

Section OddSizes.

Variable DataLoader : nat -> list pyval -> bool -> Z -> list pyval.

Lemma gnss_patches (s : State) :
  patches_list (self (snd (get_next_subject_sample DataLoader s))) =
  patches_list (self s).
Proof.
  destruct (subjects_iterable (self s)) as [|b rest] eqn:E.
  - assert (R : patches_list (self (restarted DataLoader s)) =
                patches_list (self s)).
    { unfold restarted. st_simpl. now rewrite !printed_self. }
    destruct (next_pass DataLoader s) as [|b rest] eqn:N.
    + rewrite (gnss_restart_nil DataLoader s E N). exact R.
    + rewrite (gnss_restart_cons DataLoader s E N). exact R.
  - rewrite (gnss_cons DataLoader s E). reflexivity.
Qed.

Lemma extend_negative (s : State) (sample : pyval) (k : Z) :
  samples_per_volume (self s) = Some k ->
  (k < 0)%Z ->
  fst (extend_from sample s) <> Ok tt /\
  patches_list (self (snd (extend_from sample s))) = patches_list (self s).
Proof.
  intros Hk Hn. unfold extend_from, bind, gets.
  destruct (sampler_class (self s)) as [cls|];
    [|split; [discriminate|reflexivity]].
  unfold modify. st_simpl. rewrite Hk. unfold lift, Py.islice.
  assert (B : Z.leb 0 k = false) by (apply Z.leb_gt; exact Hn).
  rewrite B. simpl. split; [discriminate|reflexivity].
Qed.

Lemma fill_loop_negative (n : nat) (s : State) (k : Z) :
  samples_per_volume (self s) = Some k ->
  (k < 0)%Z ->
  patches_list (self (snd (fill_loop DataLoader n s))) =
    patches_list (self s) /\
  (fst (fill_loop DataLoader n s) = Ok tt -> n = O).
Proof.
  intros Hk Hn. destruct n as [|n]; [split; reflexivity|].
  simpl. unfold bind at 1 3.
  pose proof (gnss_patches s) as P1.
  pose proof (gnss_frame DataLoader s) as ((_ & _ & _ & K & _) & _).
  destruct (get_next_subject_sample DataLoader s) as [[sample|e] s1];
    simpl in P1, K; [|split; [exact P1|discriminate]].
  assert (Hk1 : samples_per_volume (self s1) = Some k) by congruence.
  destruct (extend_negative s1 sample Hk1 Hn) as (X & P2).
  unfold bind at 1 2.
  destruct (extend_from sample s1) as [[[]|e] s2]; simpl in X, P2.
  - contradiction.
  - simpl. split; [congruence|discriminate].
Qed.

End OddSizes.

(** X12.  With a negative samples per volume a refill never appends a patch:
    whatever its outcome the buffer is as before, and when it completes it
    has loaded no subject at all, so it has fetched no batch and built no
    sampler. *)
Theorem negative_samples_never_append
  (DataLoader : nat -> list pyval -> bool -> Z -> list pyval)
  (s : State) (k : Z) :
  samples_per_volume (self s) = Some k ->
  (k < 0)%Z ->
  patches_list (self (snd (fill DataLoader s))) = patches_list (self s) /\
  (fst (fill DataLoader s) = Ok tt ->
   delivered (world (snd (fill DataLoader s))) = delivered (world s) /\
   samplers (world (snd (fill DataLoader s))) = samplers (world s)).
Proof.
  intros Hk Hn. unfold fill, bind.
  pose proof (fill_header_frame s) as (Hs & _ & Hd & Hm).
  destruct (fill_header s) as [[n|e] s0]; simpl in Hs, Hd, Hm.
  - assert (Hk0 : samples_per_volume (self s0) = Some k) by congruence.
    destruct (fill_loop_negative DataLoader (Z.to_nat n) s0 Hk0 Hn) as (P & Z0).
    split; [congruence|].
    intro H. specialize (Z0 H). rewrite Z0. simpl. split; assumption.
  - simpl. split; [congruence|discriminate].
Qed.

(** X13.  [__repr__] returns a string exactly when the samples per volume
    are set, and raises the [TypeError] of [iterations_per_epoch]
    otherwise; a capacity that is [None] is formatted and is no obstacle;
    and [__repr__] succeeds exactly when [__len__] does. *)
Theorem repr_needs_samples_per_volume (q : Queue) :
  (forall k, samples_per_volume q = Some k -> exists str, __repr__ q = Ok str) /\
  (samples_per_volume q = None -> __repr__ q = Raise TypeError) /\
  ((exists str, __repr__ q = Ok str) <-> (exists n, __len__ q = Ok n)).
Proof.
  unfold __repr__, __len__, iterations_per_epoch, Py.mul.
  split; [|split].
  - intros k ->. simpl. eexists. reflexivity.
  - intros ->. reflexivity.
  - destruct (samples_per_volume q); simpl; split; intros [x H];
      try discriminate; eexists; reflexivity.
Qed.

Lemma take_from_prefix (it : Py.iterator) (fuel i m : nat) :
  (m <= fuel)%nat ->
  (forall j, (j < m)%nat -> it (i + j)%nat <> None) ->
  ((m < fuel)%nat -> it (i + m)%nat = None) ->
  List.length (Py.take_from it i fuel) = m /\
  forall j, (j < m)%nat ->
    nth_error (Py.take_from it i fuel) j = it (i + j)%nat.
Proof.
  revert i m. induction fuel as [|fuel IH]; intros i m Hm Hs He.
  - assert (m = O) by lia. subst m. simpl. split; [reflexivity|]. lia.
  - simpl. destruct m as [|m].
    + rewrite Nat.add_0_r in He. rewrite He by lia.
      split; [reflexivity|]. lia.
    + pose proof (Hs O ltac:(lia)) as H0. rewrite Nat.add_0_r in H0.
      destruct (it i) as [p|] eqn:E; [|contradiction].
      destruct (IH (S i) m) as (L & N).
      * lia.
      * intros j Hj. replace (S i + j)%nat with (i + S j)%nat by lia.
        apply Hs. lia.
      * intro Hlt. replace (S i + m)%nat with (i + S m)%nat by lia.
        apply He. lia.
      * split; [simpl; now rewrite L|].
        intros [|j] Hj; simpl.
        -- now rewrite Nat.add_0_r, E.
        -- rewrite N by lia. f_equal. lia.
Qed.

(** X14.  The loop body takes from the sampler its first patches, in order,
    up to the samples per volume: a sampler that ends after [m] patches,
    fewer than asked for, gives a short group of those [m] patches, with no
    padding and no error; a sampler that has more is asked for no more than
    the samples per volume. *)
Theorem extend_takes_first_patches (s : State) (sample : pyval)
  (cls : Sampler) (k : Z) (m : nat) :
  sampler_class (self s) = Some cls ->
  samples_per_volume (self s) = Some k ->
  (0 <= k <= Py.maxsize)%Z ->
  (Z.of_nat m <= k)%Z ->
  (forall j, (j < m)%nat ->
     cls (samplers (world s)) sample (patch_size (self s)) j <> None) ->
  ((Z.of_nat m < k)%Z ->
   cls (samplers (world s)) sample (patch_size (self s)) m = None) ->
  exists group,
    extend_from sample s =
      (Ok tt,
       set_patches_list (patches_list (self s) ++ group) (tick_samplers s)) /\
    List.length group = m /\
    forall j, (j < m)%nat ->
      nth_error group j =
      cls (samplers (world s)) sample (patch_size (self s)) j.
Proof.
  intros Hc Hk Hr Hm Hs He.
  rewrite (extend_from_run s sample Hc Hk). unfold Py.islice.
  assert (B : (Z.leb 0 k && Z.leb k Py.maxsize)%bool = true).
  { apply andb_true_iff. split; apply Z.leb_le; lia. }
  rewrite B. eexists. split; [reflexivity|].
  apply take_from_prefix.
  - lia.
  - intros j Hj. simpl. now apply Hs.
  - intro Hlt. simpl. apply He. lia.
Qed.

(** X15.  No method assigns to what the constructor was given: the dataset,
    the capacity, the samples per volume, the sampler class, the patch size,
    the number of workers and the two flags are the same after any run of
    calls of [__getitem__], whatever the calls return. *)
Theorem configuration_is_kept
  (DataLoader : nat -> list pyval -> bool -> Z -> list pyval)
  (n : nat) (s : State) :
  same_config (self s) (self (snd (pops DataLoader n s))).
Proof. apply pops_same_config. Qed.

Lemma assoc_absent (key : string) (d : list (string * pyval)) :
  ~ In key (map fst d) -> Py.assoc key d = None.
Proof.
  induction d as [|[k v] d IH]; simpl; intro H; [reflexivity|].
  destruct (String.eqb k key) eqn:E.
  - apply String.eqb_eq in E. exfalso. apply H. now left.
  - apply IH. intro I. apply H. now right.
Qed.

(** X16.  A batch that is a dict without an ['image'] key, all of whose
    values can be stripped of their batch axis, is refused with [KeyError]
    when line 114 reads its image; the batch has been fetched all the same,
    and the buffer is untouched. *)
Theorem batch_without_image
  (DataLoader : nat -> list pyval -> bool -> Z -> list pyval)
  (s : State) (items : list (string * pyval)) :
  peek DataLoader s = Some (PDict items) ->
  NoDup (map fst items) ->
  Forall (fun kv => indexable 0 (snd kv)) items ->
  ~ In "image"%string (map fst items) ->
  fst (get_next_subject_sample DataLoader s) = Raise KeyError /\
  delivered (world (snd (get_next_subject_sample DataLoader s))) =
    S (delivered (world s)) /\
  patches_list (self (snd (get_next_subject_sample DataLoader s))) =
    patches_list (self s).
Proof.
  intros P N F I.
  destruct (gnss_some DataLoader s P) as (s' & G & _ & Pl & _ & Dl & _).
  rewrite G. simpl. split; [|split; assumption].
  unfold check_subject_batch, squeeze_batch.
  pose proof (squeeze_items_stripped 0 items [] N) as Q. simpl in Q.
  rewrite Q.
  destruct (proj2 (squeeze_items_ok 0 items items) F) as [b Hb].
  rewrite Q in Hb.
  destruct (stripped 0 items) as [b'|e] eqn:S; simpl in Hb; [|discriminate].
  inversion Hb; subst b'. simpl.
  destruct (stripped_shape 0 items S) as (K & _).
  rewrite assoc_absent; [reflexivity|]. now rewrite K.
Qed.

(** ** The further properties on concrete queues *)

Lemma patch_named_has_path (name : string) :
  has_path (Fixtures.patch_named name).
Proof. eexists. eexists. split; reflexivity. Qed.

Lemma path_suffix_is_last_segment_witness :
  exists w,
    path_suffixes [Fixtures.patch_named "a_patch"] = Ok [PStr w] /\
    occurs "_" w = false /\
    ("a_patch"%string = w \/
     exists pre,
       "a_patch"%string = String.append pre (String.append "_" w)).
Proof.
  exact (@path_suffix_is_last_segment (Fixtures.patch_fields "a_patch")
           "a_patch" eq_refl).
Defined.

Lemma squeeze_batch_strips_witness :
  squeeze_batch (PDict Fixtures.batch_items) 0 =
  Ok (Fixtures.subject "a" Fixtures.vol).
Proof.
  assert (N : NoDup (map fst Fixtures.batch_items)).
  { repeat constructor; simpl; intuition discriminate. }
  rewrite (proj1 (@squeeze_batch_strips 0 Fixtures.batch_items N)).
  reflexivity.
Defined.

Lemma fetched_sample_has_four_axes_witness :
  exists shape,
    Py.getitem_key (Fixtures.subject "a" Fixtures.vol) "image" =
      Ok (PTensor shape) /\
    List.length shape = 4%nat.
Proof.
  exact (@fetched_sample_has_four_axes Fixtures.seq_loader Fixtures.queue_4_2
           (snd (get_next_subject_sample Fixtures.seq_loader
                   Fixtures.queue_4_2))
           (Fixtures.subject "a" Fixtures.vol) eq_refl).
Defined.

Lemma pops_are_lifo_witness :
  exists s',
    pops Fixtures.seq_loader 2 Fixtures.queue_buffered =
      (Ok [Fixtures.patch_named "x_3"; Fixtures.patch_named "x_2"], s') /\
    patches_list (self s') = [Fixtures.patch_named "x_1"].
Proof.
  destruct
    (@pops_are_lifo Fixtures.seq_loader
       [Fixtures.patch_named "x_2"; Fixtures.patch_named "x_3"]
       [Fixtures.patch_named "x_1"] Fixtures.queue_buffered eq_refl)
    as (s' & H & P & _).
  - repeat constructor; apply patch_named_has_path.
  - exists s'. split; [exact H|exact P].
Defined.

Lemma pops_count_witness :
  num_sampled_patches
    (self (snd (pops Fixtures.seq_loader 5 Fixtures.queue_4_2))) = 5%Z.
Proof.
  destruct (pops Fixtures.seq_loader 5 Fixtures.queue_4_2) as [[l|e] s']
    eqn:E.
  - exact (proj2 (@pops_count Fixtures.seq_loader 5 Fixtures.queue_4_2 s' l E)).
  - vm_compute in E. discriminate E.
Defined.

Lemma failed_pop_keeps_patches_witness :
  num_sampled_patches
    (self (snd (__getitem__ Fixtures.seq_loader PNone
                  Fixtures.queue_flat_second))) = 0%Z.
Proof.
  exact (proj1
    (@failed_pop_keeps_patches Fixtures.seq_loader PNone
       Fixtures.queue_flat_second
       (snd (__getitem__ Fixtures.seq_loader PNone Fixtures.queue_flat_second))
       AssertionError eq_refl)).
Defined.

Lemma refill_warns_once_witness :
  warnings_of (trace (world (snd (fill Fixtures.seq_loader
                                    Fixtures.queue_10_3)))) =
  [divisibility_warning 10 3].
Proof.
  exact (@refill_warns_once Fixtures.seq_loader Fixtures.queue_10_3
           Fixtures.endless_sampler 10 3 eq_refl ltac:(discriminate)
           eq_refl eq_refl ltac:(discriminate)).
Defined.

Lemma zero_samples_per_volume_witness :
  fst (__getitem__ Fixtures.seq_loader PNone Fixtures.queue_zero) =
  Raise ZeroDivisionError.
Proof.
  rewrite (@zero_samples_per_volume Fixtures.seq_loader PNone
             Fixtures.queue_zero Fixtures.endless_sampler 4 eq_refl
             ltac:(discriminate) eq_refl eq_refl eq_refl).
  reflexivity.
Defined.

Lemma cursor_accounts_for_every_batch_witness :
  balanced (snd (pops Fixtures.seq_loader 7 Fixtures.queue_4_2)).
Proof.
  apply (proj2
    (@cursor_accounts_for_every_batch Fixtures.seq_loader seq_loader_length)).
  exact (proj1
    (@cursor_accounts_for_every_batch Fixtures.seq_loader seq_loader_length)
    Fixtures.four_subjects (Some 4%Z) (Some 2%Z) (PInt 2)
    (Some Fixtures.endless_sampler) 0%Z false false Fixtures.world0 eq_refl).
Defined.

Lemma quiet_when_not_verbose_witness :
  exists ws,
    trace (world (snd (pops Fixtures.seq_loader 5 Fixtures.queue_10_3))) =
      trace (world Fixtures.queue_10_3) ++ ws /\
    Forall (fun e => is_warning e = true) ws.
Proof.
  exact (proj2 (@quiet_when_not_verbose Fixtures.seq_loader 5
                  Fixtures.queue_10_3 eq_refl)).
Defined.

Lemma negative_samples_never_append_witness :
  patches_list (self (snd (fill Fixtures.seq_loader Fixtures.queue_negative))) =
  [].
Proof.
  exact (proj1
    (@negative_samples_never_append Fixtures.seq_loader
       Fixtures.queue_negative (-2) eq_refl eq_refl)).
Defined.

Lemma extend_takes_first_patches_witness :
  exists group,
    extend_from (Fixtures.subject "a" Fixtures.vol) Fixtures.queue_short =
      (Ok tt,
       set_patches_list (patches_list (self Fixtures.queue_short) ++ group)
         (tick_samplers Fixtures.queue_short)) /\
    List.length group = 1%nat.
Proof.
  destruct
    (@extend_takes_first_patches Fixtures.queue_short
       (Fixtures.subject "a" Fixtures.vol) Fixtures.short_sampler 2 1
       eq_refl eq_refl)
    as (group & H & L & _).
  - unfold Py.maxsize. lia.
  - lia.
  - intros j Hj. destruct j; [discriminate|lia].
  - intros _. reflexivity.
  - exists group. split; [exact H|exact L].
Defined.

Lemma batch_without_image_witness :
  fst (get_next_subject_sample Fixtures.seq_loader Fixtures.queue_imageless) =
  Raise KeyError.
Proof.
  apply (@batch_without_image Fixtures.seq_loader Fixtures.queue_imageless
           Fixtures.imageless_items eq_refl).
  - repeat constructor. simpl. intuition.
  - repeat constructor. eexists. reflexivity.
  - simpl. intuition discriminate.
Defined.
